(** * admin-ui: the list-state engine of the directory widget

A shallow embedding of [src/hooks/usePaginatedList.ts],
[src/hooks/usePagination.ts], [src/AdminUI/AdminUI.tsx] and the
[useApiService] hook, followed by the properties of the page window,
the page slices and the handlers of the component.

JavaScript numbers that the code only ever uses as integers (page
numbers, indices, lengths) are [Z]; arrays are [list]s; React state is
a record threaded through the handlers, and the effects a handler
triggers are written out after it. *)

From Stdlib Require Import ZArith String Ascii List Bool Lia Sorted.
Import ListNotations.
Open Scope Z_scope.

(* ================================================================== *)
(** ** Built-ins of the language the code relies on *)

Module JS.

(** [arr.length]. *)
Definition len {A} (l : list A) : Z := Z.of_nat (List.length l).

(** [Array.prototype.slice(start, end)]: negative positions count from
    the end, positions past the end are cut to the length, and an empty
    or reversed interval gives the empty array. *)
Definition slice {A} (l : list A) (start end_ : Z) : list A :=
  let n := len l in
  let k := if start <? 0 then Z.max (n + start) 0 else Z.min start n in
  let final := if end_ <? 0 then Z.max (n + end_) 0 else Z.min end_ n in
  firstn (Z.to_nat (final - k)) (skipn (Z.to_nat k) l).

(** [arr.map((item, index) => f(item, index))], the index counted from
    [i]. *)
Fixpoint mapi_from {A B} (i : Z) (f : A -> Z -> B) (l : list A) : list B :=
  match l with
  | [] => []
  | x :: t => f x i :: mapi_from (i + 1) f t
  end.

Definition mapi {A B} (f : A -> Z -> B) (l : list A) : list B :=
  mapi_from 0 f l.

(** [arr.findIndex(p)]: the first index whose element satisfies [p],
    [-1] when there is none. *)
Fixpoint findIndex_from {A} (i : Z) (p : A -> bool) (l : list A) : Z :=
  match l with
  | [] => -1
  | x :: t => if p x then i else findIndex_from (i + 1) p t
  end.

Definition findIndex {A} (p : A -> bool) (l : list A) : Z :=
  findIndex_from 0 p l.

(** [arr.every(p)]. *)
Definition every {A} (p : A -> bool) (l : list A) : bool := forallb p l.

(** [hay.includes(needle)]: [needle] occurs in [hay] as a contiguous
    run; the empty string occurs in every string. *)
Fixpoint includes (needle hay : string) : bool :=
  String.prefix needle hay
  || match hay with
     | EmptyString => false
     | String _ rest => includes needle rest
     end.

(** [a || b] on strings: the empty string is falsy. *)
Definition orElse (a b : string) : string :=
  match a with EmptyString => b | _ => a end.

(** [!!s] on strings. *)
Definition truthy (s : string) : bool :=
  match s with EmptyString => false | _ => true end.

End JS.

(** A lower-casing of the basic Latin letters, used where a concrete
    [String.prototype.toLowerCase] is needed on plain ASCII data. *)
Definition asciiLowerChar (c : ascii) : ascii :=
  let n := N_of_ascii c in
  if ((65 <=? n) && (n <=? 90))%N then ascii_of_N (n + 32) else c.

Fixpoint asciiLower (s : string) : string :=
  match s with
  | EmptyString => EmptyString
  | String c rest => String (asciiLowerChar c) (asciiLower rest)
  end.

(* ================================================================== *)
(** ** [usePaginatedList] *)

Module UsePaginatedList.
Section Hook.
Context {T : Type}.

(** The three [useState] cells of the hook; [currentPage] is stored
    zero-based. *)
Record State := mkState {
  original : list T;
  currentPage : Z;
  pageSize : Z
}.

(** [usePaginatedList({ list = [], pageSize = 10, initialPage = 1 })]. *)
Definition init (list_ : list T) (initialPageSize initialPage : Z) : State :=
  {| original := list_;
     currentPage := initialPage - 1;
     pageSize := initialPageSize |}.

Definition updateList (l : list T) (s : State) : State :=
  {| original := l; currentPage := currentPage s; pageSize := pageSize s |}.

Definition updatePageSize (n : Z) (s : State) : State :=
  {| original := original s; currentPage := currentPage s; pageSize := n |}.

Definition updateCurrentPage (page : Z) (s : State) : State :=
  {| original := original s; currentPage := page - 1;
     pageSize := pageSize s |}.

(** [[...original].slice(currentPage * pageSize,
                         (currentPage + 1) * pageSize)]. *)
Definition paginatedList (s : State) : list T :=
  JS.slice (original s)
           (currentPage s * pageSize s)
           ((currentPage s + 1) * pageSize s).

(** The slice the hook shows for a zero-based page index. *)
Definition pageSlice (items : list T) (pageIndex size : Z) : list T :=
  paginatedList {| original := items; currentPage := pageIndex;
                   pageSize := size |}.

End Hook.
Arguments State : clear implicits.
End UsePaginatedList.

(* ================================================================== *)
(** ** [usePagination] *)

Module UsePagination.

(** [range(start, end)]: the integers from [start] to [end], both
    included; empty when [start > end]. *)
Definition range (start end_ : Z) : list Z :=
  if start >? end_ then []
  else map (fun i => start + Z.of_nat i)
           (seq 0 (Z.to_nat (end_ - start + 1))).

(** The [value] of a pagination entry: a page number or the string
    ["..."]. *)
Inductive PageValue :=
| PageNumber (page : Z)
| Dots.

Record PageToken := mkToken {
  value : PageValue;
  isSelected : bool
}.

Definition boundaryCount : Z := 1.
Definition siblingCount : Z := 1.

Record State := mkState {
  currentPage : Z;
  total : Z;
  pageSize : Z
}.

(** [usePagination({ totalItems = 0, pageSize = 10, initialPage = 1 })]. *)
Definition init (totalItems initialPageSize initialPage : Z) : State :=
  {| currentPage := Z.max initialPage 1;
     total := totalItems;
     pageSize := initialPageSize |}.

(** [Math.ceil(a / b)] for an integer [a] and a positive integer [b]. *)
Definition ceilDiv (a b : Z) : Z := - ((- a) / b).

(** [Math.max(Math.ceil(total / pageSize), 1)]. *)
Definition totalPagesOf (total_ pageSize_ : Z) : Z :=
  Z.max (ceilDiv total_ pageSize_) 1.

Definition totalPages (s : State) : Z := totalPagesOf (total s) (pageSize s).

Definition canGoNext (s : State) : bool := currentPage s <? totalPages s.
Definition canGoPrev (s : State) : bool := currentPage s >? 1.

Definition setCurrentPage (p : Z) (s : State) : State :=
  {| currentPage := p; total := total s; pageSize := pageSize s |}.

Definition updateTotalItems (totalItems : Z) (s : State) : State :=
  {| currentPage := currentPage s; total := totalItems;
     pageSize := pageSize s |}.

Definition updatePageSize (n : Z) (s : State) : State :=
  {| currentPage := currentPage s; total := total s; pageSize := n |}.

Definition goToPage (page : Z) (s : State) : State :=
  setCurrentPage (Z.max 1 (Z.min page (totalPages s))) s.

Definition nextPage (s : State) : State :=
  if canGoNext s then setCurrentPage (currentPage s + 1) s else s.

Definition previousPage (s : State) : State :=
  if canGoPrev s then setCurrentPage (currentPage s - 1) s else s.

Definition firstPage (s : State) : State := setCurrentPage 1 s.
Definition lastPage (s : State) : State := setCurrentPage (totalPages s) s.

Definition startPages (tp : Z) : list Z :=
  range 1 (Z.min boundaryCount tp).

Definition endPages (tp : Z) : list Z :=
  range (Z.max (tp - boundaryCount + 1) (boundaryCount + 1)) tp.

Definition siblingsStart (cp tp : Z) : Z :=
  Z.max (Z.min (cp - siblingCount)
               (tp - boundaryCount - siblingCount * 2 - 1))
        (boundaryCount + 1).

Definition siblingsEnd (cp tp : Z) : Z :=
  Z.min (Z.max (cp + siblingCount)
               (boundaryCount + siblingCount * 2 + 2))
        (tp - boundaryCount).

Definition pageToken (cp page : Z) : PageToken :=
  {| value := PageNumber page; isSelected := page =? cp |}.

Definition dotsToken : PageToken :=
  {| value := Dots; isSelected := false |}.

(** The [pagination] memo, as a function of the current page and the
    page count. *)
Definition paginationOf (cp tp : Z) : list PageToken :=
  map (pageToken cp) (startPages tp)
  ++ (if siblingsStart cp tp >? boundaryCount + 1 then [dotsToken] else [])
  ++ map (pageToken cp) (range (siblingsStart cp tp) (siblingsEnd cp tp))
  ++ (if siblingsEnd cp tp <? tp - boundaryCount then [dotsToken] else [])
  ++ map (pageToken cp) (endPages tp).

Definition pagination (s : State) : list PageToken :=
  paginationOf (currentPage s) (totalPages s).

(** What a reader of the token sequence looks at. *)
Definition isDots (t : PageToken) : bool :=
  match value t with Dots => true | PageNumber _ => false end.

Fixpoint pageNumbers (l : list PageToken) : list Z :=
  match l with
  | [] => []
  | t :: rest =>
      match value t with
      | PageNumber p => p :: pageNumbers rest
      | Dots => pageNumbers rest
      end
  end.

Fixpoint noAdjacentDots (l : list PageToken) : bool :=
  match l with
  | [] => true
  | t :: rest =>
      match rest with
      | [] => true
      | u :: _ => negb (isDots t && isDots u) && noAdjacentDots rest
      end
  end.

End UsePagination.

(* ================================================================== *)
(** ** [useApiService] *)

Module UseApiService.
Section Hook.
Context {T : Type}.

Record State := mkState {
  data : option T;
  error : option string;
  loading : bool
}.

Inductive Action :=
| REQUEST
| SUCCESS (payload : option T)
| FAILURE (err : option string).

Definition initialState : State :=
  {| data := None; error := None; loading := false |}.

(** [action.error || "Something went wrong!"]: a missing or empty
    message falls back to the fixed text. *)
Definition failureText (err : option string) : string :=
  match err with
  | Some m => JS.orElse m "Something went wrong!"
  | None => "Something went wrong!"
  end.

Definition apiServiceReducer (state : State) (action : Action) : State :=
  match action with
  | REQUEST =>
      {| data := data state; error := None; loading := true |}
  | SUCCESS payload =>
      {| data := payload; error := error state; loading := false |}
  | FAILURE err =>
      {| data := data state; error := Some (failureText err);
         loading := false |}
  end.

End Hook.
Arguments State : clear implicits.
Arguments Action : clear implicits.
End UseApiService.

(* ================================================================== *)
(** ** What a [fetch] can do *)

Module Fetch.

(** A value caught by [catch (err)]: a [DOMException] (which is also an
    [Error]), another [Error], or something that is not an [Error]. *)
Inductive Thrown :=
| DOMException (errName message : string)
| Error (message : string)
| NotAnError.

(** [await response.json()]. *)
Inductive Body (T : Type) :=
| Json (payload : T)
| JsonThrows (e : Thrown).

(** [await fetch(url, { signal })]: the promise rejects, or resolves to a
    response with its [ok] flag, its [statusText] and its body. *)
Inductive Result (T : Type) :=
| Rejects (e : Thrown)
| Responds (ok : bool) (statusText : string) (body : Body T).

Arguments Json {T}.
Arguments JsonThrows {T}.
Arguments Rejects {T}.
Arguments Responds {T}.

(** The [try] block shared by [fetchData] and [useApiService]'s
    [trigger]: the parsed body, or what was thrown on the way. *)
Definition tryBlock {T} (r : Result T) : Thrown + T :=
  match r with
  | Rejects e => inl e
  | Responds false statusText _ =>
      inl (Error (JS.orElse statusText "Something went wrong!"))
  | Responds true _ (JsonThrows e) => inl e
  | Responds true _ (Json payload) => inr payload
  end.

(** [err instanceof DOMException && err.name === "AbortError"]. *)
Definition isAbortError (e : Thrown) : bool :=
  match e with
  | DOMException n _ => String.eqb n "AbortError"
  | _ => false
  end.

(** [err instanceof Error ? err.message : fallback]. *)
Definition messageOr (fallback : string) (e : Thrown) : string :=
  match e with
  | DOMException _ m => m
  | Error m => m
  | NotAnError => fallback
  end.

(** The request is cancelled through its [AbortController]. *)
Definition aborted {T} (msg : string) : Result T :=
  Rejects (DOMException "AbortError" msg).

End Fetch.

Module UseApiServiceTrigger.
Import UseApiService Fetch.

(** [trigger()] of [useApiService], run to the point where the request
    has settled as [r]. An empty payload is stored as [null]
    ([action.payload || null]); [payloadOf] says which payloads are
    falsy. *)
Definition trigger {T} (payloadOf : T -> option T) (r : Fetch.Result T)
    (s : State T) : State T :=
  let s1 := apiServiceReducer s REQUEST in
  match tryBlock r with
  | inr payload => apiServiceReducer s1 (SUCCESS (payloadOf payload))
  | inl err =>
      if isAbortError err then s1
      else apiServiceReducer s1
             (FAILURE (Some (messageOr "Something went wrong!" err)))
  end.

End UseApiServiceTrigger.

(* ================================================================== *)
(** ** The [AdminUI] component *)

Module AdminUI.

Inductive TUserRole := admin | member.

(** [delete?: boolean]: absent on a freshly loaded record. *)
Record TUser := mkUser {
  id : string;
  name : string;
  email : string;
  role : TUserRole;
  delete : option bool
}.

Definition PAGE_SIZE : Z := 10.

(** [item.delete] read as a condition: [undefined] counts as [false]. *)
Definition selected (item : TUser) : bool :=
  match delete item with
  | Some b => b
  | None => false
  end.

(** [{ ...item, delete: d }]. *)
Definition withDelete (d : option bool) (item : TUser) : TUser :=
  {| id := id item; name := name item; email := email item;
     role := role item; delete := d |}.

(** [{ ...item, name, role, email }]. *)
Definition withFields (n e : string) (r : TUserRole) (item : TUser) : TUser :=
  {| id := id item; name := n; email := e; role := r;
     delete := delete item |}.

(** The state of the component: the two hooks and its own [useState]
    cells. *)
Record State := mkState {
  paginated : UsePaginatedList.State TUser;
  pages : UsePagination.State;
  st_loading : bool;
  st_error : string;
  st_original : list TUser;
  st_list : list TUser;
  st_searchText : string;
  st_editIndex : Z;
  st_name : string;
  st_email : string;
  st_role : TUserRole
}.

Definition setPaginated v (s : State) : State :=
  mkState v (pages s) (st_loading s) (st_error s) (st_original s)
          (st_list s) (st_searchText s) (st_editIndex s) (st_name s)
          (st_email s) (st_role s).
Definition setPages v (s : State) : State :=
  mkState (paginated s) v (st_loading s) (st_error s) (st_original s)
          (st_list s) (st_searchText s) (st_editIndex s) (st_name s)
          (st_email s) (st_role s).
Definition setLoading v (s : State) : State :=
  mkState (paginated s) (pages s) v (st_error s) (st_original s)
          (st_list s) (st_searchText s) (st_editIndex s) (st_name s)
          (st_email s) (st_role s).
Definition setError v (s : State) : State :=
  mkState (paginated s) (pages s) (st_loading s) v (st_original s)
          (st_list s) (st_searchText s) (st_editIndex s) (st_name s)
          (st_email s) (st_role s).
Definition setOriginal v (s : State) : State :=
  mkState (paginated s) (pages s) (st_loading s) (st_error s) v
          (st_list s) (st_searchText s) (st_editIndex s) (st_name s)
          (st_email s) (st_role s).
Definition setList v (s : State) : State :=
  mkState (paginated s) (pages s) (st_loading s) (st_error s)
          (st_original s) v (st_searchText s) (st_editIndex s) (st_name s)
          (st_email s) (st_role s).
Definition setSearchText v (s : State) : State :=
  mkState (paginated s) (pages s) (st_loading s) (st_error s)
          (st_original s) (st_list s) v (st_editIndex s) (st_name s)
          (st_email s) (st_role s).
Definition setEditIndex v (s : State) : State :=
  mkState (paginated s) (pages s) (st_loading s) (st_error s)
          (st_original s) (st_list s) (st_searchText s) v (st_name s)
          (st_email s) (st_role s).
Definition setName v (s : State) : State :=
  mkState (paginated s) (pages s) (st_loading s) (st_error s)
          (st_original s) (st_list s) (st_searchText s) (st_editIndex s) v
          (st_email s) (st_role s).
Definition setEmail v (s : State) : State :=
  mkState (paginated s) (pages s) (st_loading s) (st_error s)
          (st_original s) (st_list s) (st_searchText s) (st_editIndex s)
          (st_name s) v (st_role s).
Definition setRole v (s : State) : State :=
  mkState (paginated s) (pages s) (st_loading s) (st_error s)
          (st_original s) (st_list s) (st_searchText s) (st_editIndex s)
          (st_name s) (st_email s) v.

(** What the component reads from [usePagination]. *)
Definition currentPage (s : State) : Z := UsePagination.currentPage (pages s).
Definition totalPages (s : State) : Z := UsePagination.totalPages (pages s).
Definition pagination (s : State) : list UsePagination.PageToken :=
  UsePagination.pagination (pages s).
Definition paginatedList (s : State) : list TUser :=
  UsePaginatedList.paginatedList (paginated s).

(** [selectedCount]: counted on the displayed [list]. *)
Definition selectedCount (s : State) : Z :=
  JS.len (filter selected (st_list s)).

(** The [checked] attribute of the header checkbox. *)
Definition headerChecked (s : State) : bool :=
  (JS.len (st_list s) >? 0) && JS.every selected (st_list s).

(** *** The three dependent effects

Each runs after a render in which one of its dependencies changed:
[original] for the first, [currentPage] for the second, the
[paginatedList] memo for the third. *)

(** [updateList(original); updateTotalItems(original.length)]. *)
Definition effectOriginal (s : State) : State :=
  setPages
    (UsePagination.updateTotalItems (JS.len (st_original s)) (pages s))
    (setPaginated
       (UsePaginatedList.updateList (st_original s) (paginated s)) s).

(** [setSearchText(""); updateCurrentPage(currentPage)]. *)
Definition effectCurrentPage (s : State) : State :=
  setPaginated
    (UsePaginatedList.updateCurrentPage (currentPage s) (paginated s))
    (setSearchText "" s).

(** [setList(paginatedList)]. *)
Definition effectPaginatedList (s : State) : State :=
  setList (paginatedList s) s.

(** [setOriginal(v)] and the renders that follow: [map] and [filter]
    always build a new array, so [original] changes, the first effect
    hands it to [usePaginatedList], whose memo is recomputed, and the
    third effect copies the new slice into [list]. The second effect
    does not run: [currentPage] is unchanged. *)
Definition commitOriginal (v : list TUser) (s : State) : State :=
  effectPaginatedList (effectOriginal (setOriginal v s)).

(** A navigation callback [nav] of [usePagination] and the renders that
    follow. Setting [currentPage] to the value it already has changes
    nothing; otherwise the second effect runs, the zero-based page of
    [usePaginatedList] changes with it, and the third effect copies the
    new slice into [list]. *)
Definition commitPage (nav : UsePagination.State -> UsePagination.State)
    (s : State) : State :=
  let pages' := nav (pages s) in
  if UsePagination.currentPage pages' =? currentPage s then s
  else effectPaginatedList (effectCurrentPage (setPages pages' s)).

(** The first render: every [useState] at its initial value. *)
Definition initial : State :=
  {| paginated := UsePaginatedList.init [] PAGE_SIZE 1;
     pages := UsePagination.init 0 PAGE_SIZE 1;
     st_loading := true;
     st_error := "";
     st_original := [];
     st_list := [];
     st_searchText := "";
     st_editIndex := -1;
     st_name := "";
     st_email := "";
     st_role := member |}.

(** After mounting: [fetchData] has started ([setLoading(true)]) and
    every effect has run once. *)
Definition mounted : State :=
  effectPaginatedList
    (effectCurrentPage (effectOriginal (setLoading true initial))).

(** *** [fetchData], settled with the result [r] of the request *)
Definition fetchData (r : Fetch.Result (list TUser)) (s : State) : State :=
  let s1 := setLoading true s in
  match Fetch.tryBlock r with
  | inr payload =>
      (* setOriginal(await response.json()); finally setLoading(false) *)
      setLoading false (commitOriginal payload s1)
  | inl err =>
      if Fetch.isAbortError err then
        (* return; finally setLoading(false) *)
        setLoading false s1
      else
        setLoading false
          (setError (Fetch.messageOr "Error while fetching the data" err) s1)
  end.

(** *** Handlers *)

Definition onSearch (text : string) (s : State) : State :=
  setSearchText text s.

(** [getAttribute] gives [null] or a string; [if (!id) return] stops on
    [null] and on the empty string. *)
Definition usableId (attr : option string) : option string :=
  match attr with
  | Some a => if JS.truthy a then Some a else None
  | None => None
  end.

Definition isInCurrentPage (cp index : Z) : bool :=
  (index >=? (cp - 1) * PAGE_SIZE) && (index <? cp * PAGE_SIZE).

Definition onCheckboxClick (attr : option string) (s : State) : State :=
  match usableId attr with
  | None => s
  | Some a =>
      commitOriginal
        (JS.mapi
           (fun item index =>
              if String.eqb a "all" then
                withDelete
                  (if isInCurrentPage (currentPage s) index
                   then Some (negb (selected item))
                   else delete item)
                  item
              else if String.eqb (id item) a
                   then withDelete (Some (negb (selected item))) item
                   else item)
           (st_original s))
        s
  end.

(** What the branch [id === "all"] of [onCheckboxClick] does to one record. *)
Definition flipOnPage (cp : Z) (item : TUser) (index : Z) : TUser :=
  withDelete (if isInCurrentPage cp index
              then Some (negb (selected item))
              else delete item)
             item.

Definition onDeleteSelectedClick (s : State) : State :=
  commitOriginal (filter (fun item => negb (selected item)) (st_original s)) s.

Definition onDeleteClick (attr : option string) (s : State) : State :=
  match usableId attr with
  | None => s
  | Some a =>
      commitOriginal
        (filter (fun item => negb (String.eqb (id item) a)) (st_original s))
        s
  end.

Definition onEditClick (attr : option string) (s : State) : State :=
  match usableId attr with
  | None => s
  | Some a =>
      let index := JS.findIndex (fun item => String.eqb (id item) a)
                                (st_list s) in
      if index <? 0 then s
      else
        match nth_error (st_list s) (Z.to_nat index) with
        | Some user =>
            setRole (role user)
              (setEmail (email user)
                 (setName (name user) (setEditIndex index s)))
        | None => s  (* not reached: a found index is inside [list] *)
        end
  end.

Definition onNameEdit (v : string) (s : State) : State := setName v s.
Definition onEmailEdit (v : string) (s : State) : State := setEmail v s.
Definition onRoleChange (v : TUserRole) (s : State) : State := setRole v s.

Definition onSaveClick (s : State) : State :=
  let saved :=
    commitOriginal
      (JS.mapi
         (fun item index =>
            if index =? (currentPage s - 1) * PAGE_SIZE + st_editIndex s
            then withFields (st_name s) (st_email s) (st_role s) item
            else item)
         (st_original s))
      s in
  setRole member (setEmail "" (setName "" (setEditIndex (-1) saved))).

Definition goToPage (page : Z) : State -> State :=
  commitPage (UsePagination.goToPage page).
Definition nextPage : State -> State := commitPage UsePagination.nextPage.
Definition previousPage : State -> State :=
  commitPage UsePagination.previousPage.
Definition firstPage : State -> State := commitPage UsePagination.firstPage.
Definition lastPage : State -> State := commitPage UsePagination.lastPage.

(** [typeof value === "number" && goToPage(value)]. *)
Definition onPageClick (v : UsePagination.PageValue) (s : State) : State :=
  match v with
  | UsePagination.PageNumber p => goToPage p s
  | UsePagination.Dots => s
  end.

Section Search.

(** [String.prototype.toLowerCase], left open. *)
Variable toLowerCase : string -> string.

Definition matchesSearch (searchText : string) (item : TUser) : bool :=
  JS.includes (toLowerCase searchText) (toLowerCase (email item))
  || JS.includes (toLowerCase searchText) (toLowerCase (name item)).

Definition onSearchIconClick (s : State) : State :=
  setList (filter (matchesSearch (st_searchText s)) (st_original s)) s.

(** *** What the operator can do

    An event names the control it comes from; [step] is [None] when
    that control is not rendered or is [disabled] in the state, and
    otherwise runs the handler with the [data-*-id] attribute the
    control carries. *)
Inductive Event :=
| FetchSettles (r : Fetch.Result (list TUser))
| SearchInput (text : string)
| SearchIconClick
| HeaderCheckboxChange
| RowCheckboxChange (row : nat)
| DeleteSelectedClick
| DeleteClick (row : nat)
| EditClick (row : nat)
| NameInput (v : string)
| EmailInput (v : string)
| RoleSelect (v : TUserRole)
| SaveClick
| PageButtonClick (position : nat)
| FirstPageClick
| PreviousPageClick
| NextPageClick
| LastPageClick.

(** The row at [row], when the table body shows rows
    ([!loading && list.length > 0]). *)
Definition renderedRow (row : nat) (s : State) : option TUser :=
  if st_loading s then None else nth_error (st_list s) row.

(** A row shows its inputs and [Save] when [editIndex === index], and
    its edit and delete buttons otherwise. *)
Definition rowInEdit (row : nat) (s : State) : bool :=
  st_editIndex s =? Z.of_nat row.

Definition editedRow (s : State) : option TUser :=
  if st_editIndex s <? 0 then None
  else renderedRow (Z.to_nat (st_editIndex s)) s.

Definition step (e : Event) (s : State) : option State :=
  match e with
  | FetchSettles r =>
      if st_loading s then Some (fetchData r s) else None
  | SearchInput text => Some (onSearch text s)
  | SearchIconClick => Some (onSearchIconClick s)
  | HeaderCheckboxChange => Some (onCheckboxClick (Some "all"%string) s)
  | RowCheckboxChange row =>
      match renderedRow row s with
      | Some item => Some (onCheckboxClick (Some (id item)) s)
      | None => None
      end
  | DeleteSelectedClick =>
      if selectedCount s =? 0 then None
      else Some (onDeleteSelectedClick s)
  | DeleteClick row =>
      match renderedRow row s with
      | Some item =>
          if rowInEdit row s then None
          else Some (onDeleteClick (Some (id item)) s)
      | None => None
      end
  | EditClick row =>
      match renderedRow row s with
      | Some item =>
          if rowInEdit row s then None
          else Some (onEditClick (Some (id item)) s)
      | None => None
      end
  | NameInput v =>
      match editedRow s with
      | Some _ => Some (onNameEdit v s)
      | None => None
      end
  | EmailInput v =>
      match editedRow s with
      | Some _ => Some (onEmailEdit v s)
      | None => None
      end
  | RoleSelect v =>
      match editedRow s with
      | Some _ => Some (onRoleChange v s)
      | None => None
      end
  | SaveClick =>
      match editedRow s with
      | Some _ => Some (onSaveClick s)
      | None => None
      end
  | PageButtonClick position =>
      match nth_error (pagination s) position with
      | Some token =>
          if UsePagination.isSelected token then None
          else Some (onPageClick (UsePagination.value token) s)
      | None => None
      end
  | FirstPageClick =>
      if UsePagination.canGoPrev (pages s) then Some (firstPage s)
      else None
  | PreviousPageClick =>
      if UsePagination.canGoPrev (pages s) then Some (previousPage s)
      else None
  | NextPageClick =>
      if UsePagination.canGoNext (pages s) then Some (nextPage s)
      else None
  | LastPageClick =>
      if UsePagination.canGoNext (pages s) then Some (lastPage s)
      else None
  end.

Fixpoint run (events : list Event) (s : State) : option State :=
  match events with
  | [] => Some s
  | e :: rest =>
      match step e s with
      | Some s' => run rest s'
      | None => None
      end
  end.

(** The states the component can be brought to after mounting. *)
Definition reachable (s : State) : Prop :=
  exists events, run events mounted = Some s.

(** What the table shows: the current page of the canonical list, or
    every match of some query in the canonical list. *)
Definition showsPageOrMatches (s : State) : Prop :=
  st_list s = paginatedList s
  \/ exists query, st_list s = filter (matchesSearch query) (st_original s).

End Search.

(** The events that come from the pagination bar. *)
Definition isNavigation (e : Event) : bool :=
  match e with
  | PageButtonClick _ | FirstPageClick | PreviousPageClick
  | NextPageClick | LastPageClick => true
  | _ => false
  end.

(** The event that settles the request. *)
Definition isFetchSettles (e : Event) : bool :=
  match e with
  | FetchSettles _ => true
  | _ => false
  end.

(** What the effects keep true between the component and its two hooks:
    [usePaginatedList] holds the canonical list and the zero-based current
    page, [usePagination] counts the canonical list, both use
    [PAGE_SIZE], and the current page is at least 1. *)
Definition hooksInSync (s : State) : Prop :=
  UsePaginatedList.original (paginated s) = st_original s
  /\ UsePaginatedList.currentPage (paginated s) = currentPage s - 1
  /\ UsePaginatedList.pageSize (paginated s) = PAGE_SIZE
  /\ UsePagination.total (pages s) = JS.len (st_original s)
  /\ UsePagination.pageSize (pages s) = PAGE_SIZE
  /\ 1 <= currentPage s.

(** What a row shows of a record: its fields and whether it is ticked. *)
Definition rowView (item : TUser)
  : string * string * string * TUserRole * bool :=
  (id item, name item, email item, role item, selected item).

End AdminUI.

(* ================================================================== *)
(** ** A directory of 25 records, as the component loads it *)

Module Sample.
Import AdminUI.
Local Open Scope string_scope.

(** A record as parsed from the response: no [delete] key. *)
Definition fresh (i n e : string) (r : TUserRole) : TUser :=
  {| id := i; name := n; email := e; role := r; delete := None |}.

Definition members : list TUser := [
  fresh "1" "Aaron Miles" "aaron@mailinator.com" member;
  fresh "2" "Aishwarya Naik" "aishwarya@mailinator.com" member;
  fresh "3" "Arvind Kumar" "arvind@mailinator.com" admin;
  fresh "4" "Caterina Binotto" "caterina@mailinator.com" member;
  fresh "5" "Chetan Kumar" "chetan@mailinator.com" member;
  fresh "6" "Jim McClain" "jim@mailinator.com" member;
  fresh "7" "Mahaveer Singh" "mahaveer@mailinator.com" admin;
  fresh "8" "Zora Hill" "zora@mailinator.com" member;
  fresh "9" "Yuki Hashimoto" "yuki@mailinator.com" member;
  fresh "10" "Gao Jun" "gao@mailinator.com" member;
  fresh "11" "Gabriel Francis" "gabriel@mailinator.com" admin;
  fresh "12" "Hugo Lopez" "hugo@mailinator.com" member;
  fresh "13" "Hu Jintao" "hu@mailinator.com" member;
  fresh "14" "Ines Moreau" "ines@mailinator.com" member;
  fresh "15" "Ned Park" "razor@mailinator.com" admin;
  fresh "16" "Jo Bauer" "jo@mailinator.com" member;
  fresh "17" "Pooja Mishra" "pooja@mailinator.com" member;
  fresh "18" "Rahul Jain" "rahul@mailinator.com" member;
  fresh "19" "Samara Kuhn" "samara@mailinator.com" admin;
  fresh "20" "Tefera Ashetu" "tefera@mailinator.com" member;
  fresh "21" "Kiran Shah" "kiran@mailinator.com" member;
  fresh "22" "Karen Stone" "karen@mailinator.com" member;
  fresh "23" "Paavo Niemi" "paavo@mailinator.com" admin;
  fresh "24" "Sameer Roy" "sameer@mailinator.com" member;
  fresh "25" "Usha Rao" "usha@mailinator.com" member ].

(** The request answers with [members]. *)
Definition answer : Fetch.Result (list TUser) :=
  Fetch.Responds true "OK" (Fetch.Json members).

(** The component after the request has answered with [members]. *)
Definition loaded : State := fetchData answer mounted.

(** ["ZOR"] typed into the search box of the loaded component; it occurs,
    case aside, in the name of record 8 and in the email of record 15. *)
Definition searching : State := onSearch "ZOR" loaded.

(** Page 2 of the loaded component, its third row (record 13) in edit
    mode with the name changed. *)
Definition editing : State :=
  onNameEdit "Hu Jin" (onEditClick (Some "13") (goToPage 2 loaded)).

End Sample.

(* ================================================================== *)
(** * Properties *)

(** ** Lists: slices, indexed maps, sorted concatenations *)

Section ListFacts.
Context {A : Type}.

Lemma firstn_plus (a b : nat) (l : list A) :
  firstn (a + b) l = firstn a l ++ firstn b (skipn a l).
Proof.
  revert l; induction a as [|a IH]; intros l; simpl.
  - reflexivity.
  - destruct l as [|x l]; simpl.
    + now rewrite firstn_nil.
    + now rewrite IH.
Qed.

Lemma In_firstn (n : nat) (l : list A) (x : A) :
  In x (firstn n l) -> In x l.
Proof.
  intros H. rewrite <- (firstn_skipn n l). apply in_or_app. now left.
Qed.

Lemma In_skipn (n : nat) (l : list A) (x : A) :
  In x (skipn n l) -> In x l.
Proof.
  intros H. rewrite <- (firstn_skipn n l). apply in_or_app. now right.
Qed.

Lemma In_slice (l : list A) (a b : Z) (x : A) :
  In x (JS.slice l a b) -> In x l.
Proof.
  unfold JS.slice. intros H. eapply In_skipn, In_firstn, H.
Qed.

Lemma StronglySorted_app (R : A -> A -> Prop) (l1 l2 : list A) :
  StronglySorted R l1 -> StronglySorted R l2 ->
  (forall x y, In x l1 -> In y l2 -> R x y) ->
  StronglySorted R (l1 ++ l2).
Proof.
  induction l1 as [|a l1 IH]; simpl; intros H1 H2 H12.
  - exact H2.
  - apply StronglySorted_inv in H1. destruct H1 as [H1 Ha].
    constructor.
    + apply IH; auto.
    + apply Forall_app. split; [exact Ha|].
      apply Forall_forall. intros y Hy. apply H12; auto.
Qed.

End ListFacts.

Lemma StronglySorted_lt_NoDup (l : list Z) :
  StronglySorted Z.lt l -> NoDup l.
Proof.
  induction 1 as [|a l Hs IH Ha]; constructor; auto.
  intros Hin. rewrite Forall_forall in Ha. specialize (Ha a Hin). lia.
Qed.

(** ** [range] *)

Module RangeFacts.
Import UsePagination.

Lemma range_empty (a b : Z) : b < a -> range a b = [].
Proof.
  intros H. unfold range. destruct (a >? b) eqn:E; [reflexivity|lia].
Qed.

Lemma range_cons (a b : Z) : a <= b -> range a b = a :: range (a + 1) b.
Proof.
  intros H. unfold range.
  destruct (a >? b) eqn:E; [lia|].
  replace (Z.to_nat (b - a + 1)) with (S (Z.to_nat (b - (a + 1) + 1))) by lia.
  cbn [seq map]. rewrite Z.add_0_r. f_equal.
  destruct (a + 1 >? b) eqn:E'.
  - replace (Z.to_nat (b - (a + 1) + 1)) with 0%nat by lia. reflexivity.
  - rewrite <- seq_shift, map_map. apply map_ext. intros i. lia.
Qed.

Lemma range_In (a b x : Z) : In x (range a b) -> a <= x <= b.
Proof.
  unfold range. destruct (a >? b) eqn:E; [intros []|].
  rewrite in_map_iff. intros (i & <- & Hi). apply in_seq in Hi. lia.
Qed.

Lemma range_sorted (a b : Z) : StronglySorted Z.lt (range a b).
Proof.
  unfold range. destruct (a >? b); [constructor|].
  generalize (Z.to_nat (b - a + 1)) as n. generalize 0%nat as s.
  intros s n; revert s. induction n as [|n IH]; intros s; cbn [seq map].
  - constructor.
  - constructor; [apply IH|].
    apply Forall_forall. intros y Hy.
    apply in_map_iff in Hy. destruct Hy as (i & <- & Hi).
    apply in_seq in Hi. lia.
Qed.

End RangeFacts.

(** ** The page window *)

Module WindowFacts.
Import UsePagination RangeFacts.

Lemma pageNumbers_app (l1 l2 : list PageToken) :
  pageNumbers (l1 ++ l2) = pageNumbers l1 ++ pageNumbers l2.
Proof.
  induction l1 as [|t l1 IH]; simpl; [reflexivity|].
  destruct (value t); simpl; now rewrite IH.
Qed.

Lemma pageNumbers_pages (cp : Z) (l : list Z) :
  pageNumbers (map (pageToken cp) l) = l.
Proof. induction l as [|p l IH]; simpl; [reflexivity|now rewrite IH]. Qed.

Lemma pageNumbers_gap (c : bool) :
  pageNumbers (if c then [dotsToken] else []) = [].
Proof. now destruct c. Qed.

(** The numbers of the window are the three blocks, in this order. *)
Lemma pageNumbers_paginationOf (cp tp : Z) :
  pageNumbers (paginationOf cp tp)
  = startPages tp
    ++ range (siblingsStart cp tp) (siblingsEnd cp tp)
    ++ endPages tp.
Proof.
  unfold paginationOf.
  rewrite !pageNumbers_app, !pageNumbers_pages, !pageNumbers_gap.
  reflexivity.
Qed.

Lemma noAdjacentDots_page (cp p : Z) (l : list PageToken) :
  noAdjacentDots (pageToken cp p :: l) = noAdjacentDots l.
Proof. destruct l; reflexivity. Qed.

Lemma noAdjacentDots_pages (cp : Z) (ps : list Z) (l : list PageToken) :
  noAdjacentDots (map (pageToken cp) ps ++ l) = noAdjacentDots l.
Proof.
  induction ps as [|p ps IH]; [reflexivity|].
  cbn [map app]. now rewrite noAdjacentDots_page.
Qed.

Lemma noAdjacentDots_dots_page (cp p : Z) (l : list PageToken) :
  noAdjacentDots (dotsToken :: pageToken cp p :: l) = noAdjacentDots l.
Proof. destruct l; reflexivity. Qed.

(** A gap marker in front of a block of pages, nothing after it. *)
Lemma noAdjacentDots_tail (cp : Z) (c : bool) (ps : list Z) :
  noAdjacentDots ((if c then [dotsToken] else []) ++ map (pageToken cp) ps)
  = true.
Proof.
  destruct c; cbn [app].
  - destruct ps as [|p ps]; [reflexivity|].
    cbn [map]. rewrite noAdjacentDots_dots_page.
    rewrite <- (app_nil_r (map _ ps)). now rewrite noAdjacentDots_pages.
  - rewrite <- (app_nil_r (map _ ps)). now rewrite noAdjacentDots_pages.
Qed.

Lemma startPages_one (tp : Z) : 1 <= tp -> startPages tp = [1].
Proof.
  intros H. unfold startPages, boundaryCount.
  rewrite Z.min_l by lia. rewrite range_cons by lia.
  now rewrite range_empty by lia.
Qed.

End WindowFacts.

Section PageWindow.
Import UsePagination RangeFacts WindowFacts.

(** C5. For every page count [tp >= 1] and every current page [cp] in
    [1 .. tp] (boundary and sibling counts both 1), the page numbers of
    the pagination tokens are strictly increasing, hence without
    duplicates, no two "..." markers are next to each other, and for a
    single page the tokens are exactly the one token of page 1. *)
Theorem pagination_window_well_formed (cp tp : Z) :
  1 <= tp -> 1 <= cp <= tp ->
  StronglySorted Z.lt (pageNumbers (paginationOf cp tp))
  /\ NoDup (pageNumbers (paginationOf cp tp))
  /\ noAdjacentDots (paginationOf cp tp) = true
  /\ paginationOf 1 1 = [ {| value := PageNumber 1; isSelected := true |} ].
Proof.
  intros Htp Hcp.
  assert (Hsorted : StronglySorted Z.lt (pageNumbers (paginationOf cp tp))).
  { rewrite pageNumbers_paginationOf, startPages_one by lia.
    change ([1] ++ ?l) with (1 :: l). constructor.
    - apply StronglySorted_app; try apply range_sorted.
      intros x y Hx Hy. apply range_In in Hx, Hy.
      unfold siblingsStart, siblingsEnd, boundaryCount, siblingCount in *.
      lia.
    - apply Forall_forall. intros y Hy.
      apply in_app_or in Hy. destruct Hy as [Hy|Hy]; apply range_In in Hy;
        unfold siblingsStart, siblingsEnd, boundaryCount, siblingCount in *;
        lia. }
  split; [exact Hsorted|]. split; [now apply StronglySorted_lt_NoDup|].
  split; [|reflexivity].
  unfold paginationOf. rewrite startPages_one by lia.
  cbn [map app]. rewrite noAdjacentDots_page.
  destruct (siblingsStart cp tp >? boundaryCount + 1) eqn:Egap; cbn [app].
  - rewrite (range_cons (siblingsStart cp tp) (siblingsEnd cp tp)).
    + cbn [map app]. rewrite noAdjacentDots_dots_page, noAdjacentDots_pages.
      apply noAdjacentDots_tail.
    + unfold siblingsStart, siblingsEnd, boundaryCount, siblingCount in *.
      lia.
  - rewrite noAdjacentDots_pages. apply noAdjacentDots_tail.
Qed.

Lemma pagination_window_well_formed_witness :
  StronglySorted Z.lt (pageNumbers (paginationOf 4 7))
  /\ NoDup (pageNumbers (paginationOf 4 7))
  /\ noAdjacentDots (paginationOf 4 7) = true
  /\ paginationOf 1 1 = [ {| value := PageNumber 1; isSelected := true |} ].
Proof.
  apply (pagination_window_well_formed 4 7); lia.
Defined.

End PageWindow.


(** ** Page slices *)

Section PageSlices.
Context {T : Type}.
Import UsePaginatedList.

(** For a page index that is not negative, the slice is the [size]
    elements that follow the first [pageIndex * size]. *)
Lemma pageSlice_firstn_skipn (items : list T) (pageIndex size : Z) :
  0 <= pageIndex -> 0 < size ->
  pageSlice items pageIndex size
  = firstn (Z.to_nat size) (skipn (Z.to_nat (pageIndex * size)) items).
Proof.
  intros Hi Hs. unfold pageSlice, paginatedList, JS.slice, JS.len. cbn.
  assert (0 <= pageIndex * size) by nia.
  destruct (pageIndex * size <? 0) eqn:E1; [lia|].
  destruct ((pageIndex + 1) * size <? 0) eqn:E2; [nia|].
  destruct (Z_lt_le_dec (pageIndex * size) (Z.of_nat (List.length items)))
    as [Hin|Hout].
  - rewrite (Z.min_l (pageIndex * size)) by lia.
    destruct (Z_le_gt_dec ((pageIndex + 1) * size)
                          (Z.of_nat (List.length items))) as [Hfull|Hpart].
    + rewrite Z.min_l by lia. f_equal. nia.
    + rewrite Z.min_r by lia.
      rewrite (firstn_all2 (n := Z.to_nat size)).
      * apply firstn_all2. rewrite length_skipn. lia.
      * rewrite length_skipn. nia.
  - rewrite (Z.min_r (pageIndex * size)) by lia.
    rewrite Z.min_r by nia.
    rewrite Z.sub_diag, Nat2Z.id. cbn [Z.to_nat firstn].
    rewrite skipn_all2 by lia. now rewrite firstn_nil.
Qed.

Lemma concat_pageSlices (items : list T) (size : Z) (k : nat) :
  0 < size ->
  concat (map (fun i => pageSlice items (Z.of_nat i) size) (seq 0 k))
  = firstn (k * Z.to_nat size) items.
Proof.
  intros Hs. induction k as [|k IH].
  - reflexivity.
  - rewrite seq_S, map_app, concat_app, IH. cbn [map concat Nat.add].
    rewrite app_nil_r, pageSlice_firstn_skipn by lia.
    replace (Z.to_nat (Z.of_nat k * size)) with (k * Z.to_nat size)%nat by nia.
    replace (S k * Z.to_nat size)%nat
      with (k * Z.to_nat size + Z.to_nat size)%nat by lia.
    now rewrite firstn_plus.
Qed.

Lemma ceilDiv_covers (n size : Z) :
  0 < size -> n <= UsePagination.ceilDiv n size * size.
Proof.
  intros Hs. unfold UsePagination.ceilDiv.
  pose proof (Z.mul_div_le (- n) size Hs). nia.
Qed.

(** C6. For every list and every positive page size, the page slices of
    the indices [0 .. ceil(length / pageSize) - 1], one after the other,
    are the list itself; the element at position [j] of page [i] is the
    element at position [i * pageSize + j] of the list, for the [j] below
    the page size, and nothing else is on the page; a page that starts at
    or after the end of the list is empty. (The list is a value here:
    [[...original].slice] copies and changes nothing.) *)
Theorem page_slices_partition (items : list T) (size : Z) :
  0 < size ->
  concat (map (fun i => pageSlice items (Z.of_nat i) size)
              (seq 0 (Z.to_nat (UsePagination.ceilDiv (JS.len items) size))))
  = items
  /\ (forall i j : nat,
        nth_error (pageSlice items (Z.of_nat i) size) j
        = if Z.of_nat j <? size
          then nth_error items (i * Z.to_nat size + j)
          else None)
  /\ (forall i : nat,
        JS.len items <= Z.of_nat i * size ->
        pageSlice items (Z.of_nat i) size = []).
Proof.
  intros Hs. split; [|split].
  - rewrite concat_pageSlices by assumption.
    apply firstn_all2.
    pose proof (ceilDiv_covers (JS.len items) size Hs) as Hc.
    unfold JS.len in *.
    assert (0 <= UsePagination.ceilDiv (Z.of_nat (List.length items)) size)
      by nia.
    nia.
  - intros i j. rewrite pageSlice_firstn_skipn by lia.
    rewrite nth_error_firstn, nth_error_skipn.
    replace (Z.to_nat (Z.of_nat i * size)) with (i * Z.to_nat size)%nat by nia.
    destruct (Z.of_nat j <? size) eqn:E.
    + replace (j <? Z.to_nat size)%nat with true; [reflexivity|].
      symmetry. apply Nat.ltb_lt. lia.
    + replace (j <? Z.to_nat size)%nat with false; [reflexivity|].
      symmetry. apply Nat.ltb_ge. lia.
  - intros i Hi. rewrite pageSlice_firstn_skipn by lia.
    rewrite skipn_all2; [now rewrite firstn_nil|].
    unfold JS.len in Hi. lia.
Qed.

End PageSlices.

Lemma page_slices_partition_witness :
  concat (map (fun i => UsePaginatedList.pageSlice [1; 2; 3; 4; 5]
                          (Z.of_nat i) 2)
              (seq 0 (Z.to_nat (UsePagination.ceilDiv
                                  (JS.len [1; 2; 3; 4; 5]) 2))))
  = [1; 2; 3; 4; 5].
Proof.
  apply (page_slices_partition [1; 2; 3; 4; 5] 2). lia.
Defined.

(** ** Indexed maps *)

Section MapiFacts.
Context {A B : Type}.

Lemma length_mapi_from (f : A -> Z -> B) (l : list A) (i : Z) :
  length (JS.mapi_from i f l) = length l.
Proof.
  revert i; induction l as [|x l IH]; intros i; simpl; [reflexivity|].
  now rewrite IH.
Qed.

(** A projection [g] of the results that is computed from the same
    projection [h] of the arguments. *)
Lemma map_mapi_from {C D : Type} (g : B -> C) (h : A -> D) (k : D -> Z -> C)
    (f : A -> Z -> B) (l : list A) (i : Z) :
  (forall x j, g (f x j) = k (h x) j) ->
  map g (JS.mapi_from i f l) = JS.mapi_from i k (map h l).
Proof.
  intros Hf. revert i; induction l as [|x l IH]; intros i; simpl.
  - reflexivity.
  - now rewrite Hf, IH.
Qed.

Lemma mapi_from_ext (f g : A -> Z -> B) (l : list A) (i : Z) :
  (forall x j, f x j = g x j) ->
  JS.mapi_from i f l = JS.mapi_from i g l.
Proof.
  intros H. revert i; induction l as [|x l IH]; intros i; simpl.
  - reflexivity.
  - now rewrite H, IH.
Qed.

End MapiFacts.

Lemma nth_error_mapi_from {A B : Type} (f : A -> Z -> B) (l : list A)
    (i : Z) (n : nat) :
  nth_error (JS.mapi_from i f l) n
  = option_map (fun x => f x (i + Z.of_nat n)) (nth_error l n).
Proof.
  revert i n; induction l as [|x l IH]; intros i [|n]; cbn [JS.mapi_from
    nth_error option_map]; try reflexivity.
  - now rewrite Z.add_0_r.
  - rewrite IH. destruct (nth_error l n); cbn; [|reflexivity].
    do 2 f_equal. lia.
Qed.

Lemma mapi_from_id {A : Type} (f : A -> Z -> A) (l : list A) (i : Z) :
  (forall x j, f x j = x) -> JS.mapi_from i f l = l.
Proof.
  intros H. revert i; induction l as [|x l IH]; intros i; simpl.
  - reflexivity.
  - now rewrite H, IH.
Qed.

Lemma mapi_from_mapi_from {A : Type} (f g : A -> Z -> A) (l : list A) (i : Z) :
  JS.mapi_from i g (JS.mapi_from i f l)
  = JS.mapi_from i (fun x j => g (f x j) j) l.
Proof.
  revert i; induction l as [|x l IH]; intros i; simpl.
  - reflexivity.
  - now rewrite IH.
Qed.

(** ** The component and its hooks *)

Module ComponentFacts.
Import AdminUI.

(** What a [setOriginal] leaves behind once the effects have run. *)
Lemma st_original_commitOriginal (v : list TUser) (s : State) :
  st_original (commitOriginal v s) = v.
Proof. reflexivity. Qed.

Lemma pages_commitOriginal (v : list TUser) (s : State) :
  pages (commitOriginal v s)
  = UsePagination.updateTotalItems (JS.len v) (pages s).
Proof. reflexivity. Qed.

Lemma currentPage_commitOriginal (v : list TUser) (s : State) :
  currentPage (commitOriginal v s) = currentPage s.
Proof. reflexivity. Qed.

Lemma st_list_commitOriginal (v : list TUser) (s : State) :
  st_list (commitOriginal v s)
  = UsePaginatedList.paginatedList
      (UsePaginatedList.updateList v (paginated s)).
Proof. reflexivity. Qed.

Lemma In_st_list_commitOriginal (v : list TUser) (s : State) (u : TUser) :
  In u (st_list (commitOriginal v s)) -> In u v.
Proof.
  rewrite st_list_commitOriginal. unfold UsePaginatedList.paginatedList.
  cbn. apply In_slice.
Qed.

Lemma hooksInSync_commitOriginal (v : list TUser) (s : State) :
  hooksInSync s -> hooksInSync (commitOriginal v s).
Proof.
  unfold hooksInSync, currentPage. cbn. intuition.
Qed.

Lemma hooksInSync_commitPage
    (nav : UsePagination.State -> UsePagination.State) (s : State) :
  UsePagination.total (nav (pages s)) = UsePagination.total (pages s) ->
  UsePagination.pageSize (nav (pages s)) = UsePagination.pageSize (pages s) ->
  1 <= UsePagination.currentPage (nav (pages s)) ->
  hooksInSync s -> hooksInSync (commitPage nav s).
Proof.
  intros Ht Hp Hc H. unfold commitPage.
  destruct (UsePagination.currentPage (nav (pages s)) =? currentPage s);
    [exact H|].
  unfold hooksInSync, currentPage in *. cbn. rewrite Ht, Hp. intuition.
Qed.

Lemma totalPages_at_least_one (p : UsePagination.State) :
  1 <= UsePagination.totalPages p.
Proof.
  unfold UsePagination.totalPages, UsePagination.totalPagesOf. lia.
Qed.

(** The navigation callbacks put the current page inside
    [1 .. totalPages], or leave it where it is. *)
Lemma goToPage_in_range (page : Z) (p : UsePagination.State) :
  1 <= UsePagination.currentPage (UsePagination.goToPage page p)
    <= UsePagination.totalPages (UsePagination.goToPage page p).
Proof.
  pose proof (totalPages_at_least_one p).
  unfold UsePagination.goToPage, UsePagination.setCurrentPage,
    UsePagination.totalPages in *. cbn. lia.
Qed.

Lemma navigation_in_range (p : UsePagination.State) :
  1 <= UsePagination.currentPage p <= UsePagination.totalPages p ->
  forall nav,
    In nav [UsePagination.nextPage; UsePagination.previousPage;
            UsePagination.firstPage; UsePagination.lastPage] ->
    1 <= UsePagination.currentPage (nav p)
      <= UsePagination.totalPages (nav p).
Proof.
  intros Hp nav Hnav. cbn [In] in Hnav.
  unfold UsePagination.totalPages in *.
  destruct Hnav as [<-|[<-|[<-|[<-|[]]]]];
    unfold UsePagination.nextPage, UsePagination.previousPage,
      UsePagination.firstPage, UsePagination.lastPage,
      UsePagination.canGoNext, UsePagination.canGoPrev,
      UsePagination.setCurrentPage, UsePagination.totalPages.
  - destruct (_ <? _) eqn:E; cbn; lia.
  - destruct (_ >? _) eqn:E; cbn; lia.
  - cbn. lia.
  - cbn. lia.
Qed.

Section Reachability.
Variable toLowerCase : string -> string.

Lemma hooksInSync_step (e : Event) (s s' : State) :
  step toLowerCase e s = Some s' -> hooksInSync s -> hooksInSync s'.
Proof.
  intros Hstep H. destruct e; cbn [step] in Hstep.
  - (* FetchSettles *)
    destruct (st_loading s); [|discriminate].
    injection Hstep as <-. unfold fetchData.
    destruct (Fetch.tryBlock r) as [err|payload].
    + destruct (Fetch.isAbortError err); exact H.
    + apply (hooksInSync_commitOriginal payload (setLoading true s)), H.
  - injection Hstep as <-. exact H.
  - injection Hstep as <-. exact H.
  - injection Hstep as <-. unfold onCheckboxClick.
    destruct (usableId _); [apply hooksInSync_commitOriginal|]; exact H.
  - destruct (renderedRow row s); [|discriminate].
    injection Hstep as <-. unfold onCheckboxClick.
    destruct (usableId _); [apply hooksInSync_commitOriginal|]; exact H.
  - destruct (selectedCount s =? 0); [discriminate|].
    injection Hstep as <-. apply hooksInSync_commitOriginal, H.
  - destruct (renderedRow row s); [|discriminate].
    destruct (rowInEdit row s); [discriminate|].
    injection Hstep as <-. unfold onDeleteClick.
    destruct (usableId _); [apply hooksInSync_commitOriginal|]; exact H.
  - destruct (renderedRow row s); [|discriminate].
    destruct (rowInEdit row s); [discriminate|].
    injection Hstep as <-. unfold onEditClick.
    destruct (usableId _); [|exact H].
    destruct (_ <? 0); [exact H|].
    destruct (nth_error _ _); exact H.
  - destruct (editedRow s); [|discriminate]. injection Hstep as <-. exact H.
  - destruct (editedRow s); [|discriminate]. injection Hstep as <-. exact H.
  - destruct (editedRow s); [|discriminate]. injection Hstep as <-. exact H.
  - destruct (editedRow s); [|discriminate]. injection Hstep as <-.
    unfold onSaveClick.
    match goal with
    | |- context [commitOriginal ?v s] =>
        exact (hooksInSync_commitOriginal v s H)
    end.
  - destruct (nth_error (pagination s) position) as [token|]; [|discriminate].
    destruct (UsePagination.isSelected token); [discriminate|].
    injection Hstep as <-. unfold onPageClick.
    destruct (UsePagination.value token); [|exact H].
    apply hooksInSync_commitPage; try reflexivity; [|exact H].
    apply goToPage_in_range.
  - destruct (UsePagination.canGoPrev (pages s)); [|discriminate].
    injection Hstep as <-.
    apply hooksInSync_commitPage; try reflexivity; try exact H.
  - destruct (UsePagination.canGoPrev (pages s)) eqn:E; [|discriminate].
    injection Hstep as <-.
    apply hooksInSync_commitPage; try (exact H);
      unfold UsePagination.previousPage; rewrite E; try reflexivity.
    unfold UsePagination.canGoPrev in E. cbn. lia.
  - destruct (UsePagination.canGoNext (pages s)) eqn:E; [|discriminate].
    injection Hstep as <-.
    apply hooksInSync_commitPage; try (exact H);
      unfold UsePagination.nextPage; rewrite E; try reflexivity.
    destruct H as (_ & _ & _ & _ & _ & H). unfold currentPage in H. cbn. lia.
  - destruct (UsePagination.canGoNext (pages s)); [|discriminate].
    injection Hstep as <-.
    apply hooksInSync_commitPage; try reflexivity; [|exact H].
    cbn. apply totalPages_at_least_one.
Qed.

Lemma hooksInSync_run (events : list Event) (s s' : State) :
  run toLowerCase events s = Some s' -> hooksInSync s -> hooksInSync s'.
Proof.
  revert s; induction events as [|e events IH]; intros s Hrun H; cbn in Hrun.
  - now injection Hrun as <-.
  - destruct (step toLowerCase e s) as [s1|] eqn:E; [|discriminate].
    eapply IH; [exact Hrun|]. eapply hooksInSync_step; eauto.
Qed.

Lemma hooksInSync_mounted : hooksInSync mounted.
Proof. unfold hooksInSync. cbn. repeat split; lia. Qed.

Lemma reachable_hooksInSync (s : State) :
  reachable toLowerCase s -> hooksInSync s.
Proof.
  intros [events Hrun].
  eapply hooksInSync_run; [exact Hrun|apply hooksInSync_mounted].
Qed.

End Reachability.

End ComponentFacts.

(** ** The header checkbox *)

Section HeaderCheckbox.
Import AdminUI ComponentFacts.
Local Open Scope string_scope.

Lemma headerCheckbox_original (s : State) :
  st_original (onCheckboxClick (Some "all") s)
  = JS.mapi (flipOnPage (currentPage s)) (st_original s).
Proof. reflexivity. Qed.

Lemma headerCheckbox_currentPage (s : State) :
  currentPage (onCheckboxClick (Some "all") s) = currentPage s.
Proof. reflexivity. Qed.

(** The flag of every record of the page is negated, one by one; the
    other flags stay. *)
Lemma headerCheckbox_flags (s : State) :
  map selected (st_original (onCheckboxClick (Some "all") s))
  = JS.mapi (fun flag index =>
               if isInCurrentPage (currentPage s) index
               then negb flag else flag)
            (map selected (st_original s)).
Proof.
  rewrite headerCheckbox_original. unfold JS.mapi.
  apply map_mapi_from. intros x j. unfold flipOnPage, selected.
  destruct (isInCurrentPage (currentPage s) j); reflexivity.
Qed.

Lemma rowView_flipOnPage_twice (cp : Z) (item : TUser) (index : Z) :
  rowView (flipOnPage cp (flipOnPage cp item index) index) = rowView item.
Proof.
  unfold rowView, flipOnPage, selected.
  destruct (isInCurrentPage cp index); cbn; [|reflexivity].
  now rewrite negb_involutive.
Qed.

(** C7. Changing the header checkbox twice in a row gives every record of
    the canonical list the selection flag it had before, and leaves its
    other fields as they were. *)
Theorem header_checkbox_twice_restores_flags (s : State) :
  map rowView
      (st_original
         (onCheckboxClick (Some "all") (onCheckboxClick (Some "all") s)))
  = map rowView (st_original s).
Proof.
  rewrite headerCheckbox_original, headerCheckbox_currentPage,
    headerCheckbox_original.
  unfold JS.mapi. rewrite mapi_from_mapi_from.
  rewrite (map_mapi_from rowView rowView (fun v _ => v)).
  - now apply mapi_from_id.
  - intros x j. apply rowView_flipOnPage_twice.
Qed.

(** C3, where the code departs from it. On the first page of the loaded
    directory the first row is ticked and then the header checkbox is
    changed: the first row comes out unticked and the nine others ticked,
    the header checkbox still shows unchecked, and the records of the
    other pages are untouched. *)
Theorem header_checkbox_on_mixed_page :
  exists s,
    run asciiLower
        [FetchSettles Sample.answer; RowCheckboxChange 0;
         HeaderCheckboxChange] mounted = Some s
    /\ map selected (st_list s)
       = [false; true; true; true; true; true; true; true; true; true]
    /\ headerChecked s = false
    /\ skipn 10 (st_original s) = skipn 10 Sample.members.
Proof.
  eexists. split; [vm_compute; reflexivity|].
  vm_compute. repeat split.
Qed.

End HeaderCheckbox.

(** ** Deleting *)

Section Deleting.
Import AdminUI ComponentFacts.
Local Open Scope string_scope.

Lemma filter_keeps_all {A : Type} (f : A -> bool) (l : list A) :
  (forall x, In x l -> f x = true) -> filter f l = l.
Proof.
  intros H. apply forallb_filter_id. now apply forallb_forall.
Qed.

Lemma filter_none {A : Type} (f : A -> bool) (l : list A) :
  (forall x, In x l -> f x = false) -> filter f l = [].
Proof.
  induction l as [|x l IH]; intros H; simpl; [reflexivity|].
  rewrite (H x) by now left. apply IH. intros y Hy. apply H. now right.
Qed.

Lemma filter_idempotent {A : Type} (f : A -> bool) (l : list A) :
  filter f (filter f l) = filter f l.
Proof.
  apply filter_keeps_all. intros x Hx. now apply filter_In in Hx.
Qed.

(** C4. After [Delete Selected] the canonical list holds no record that
    was selected before and no selected record at all, the records that
    were not selected are all there in the order they had, and the
    selected count is zero. *)
Theorem delete_selected_removes_exactly_the_selected (s : State) :
  (forall item, In item (st_original s) -> selected item = true ->
                ~ In item (st_original (onDeleteSelectedClick s)))
  /\ Forall (fun item => selected item = false)
            (st_original (onDeleteSelectedClick s))
  /\ filter (fun item => negb (selected item))
            (st_original (onDeleteSelectedClick s))
     = filter (fun item => negb (selected item)) (st_original s)
  /\ selectedCount (onDeleteSelectedClick s) = 0.
Proof.
  unfold onDeleteSelectedClick. rewrite st_original_commitOriginal.
  assert (Hkept : forall item,
             In item (filter (fun i => negb (selected i)) (st_original s)) ->
             selected item = false).
  { intros item Hin. apply filter_In in Hin. destruct Hin as [_ Hin].
    now apply negb_true_iff in Hin. }
  repeat split.
  - intros item _ Hsel Hin. apply Hkept in Hin. congruence.
  - apply Forall_forall. exact Hkept.
  - apply filter_idempotent.
  - unfold selectedCount, JS.len. rewrite filter_none; [reflexivity|].
    intros item Hin. apply In_st_list_commitOriginal in Hin. now apply Hkept.
Qed.

(** C10. Deleting by an id that no record of the canonical list has
    leaves the canonical list as it is. *)
Theorem delete_of_unknown_id_keeps_original (s : State) (i : string) :
  (forall item, In item (st_original s) -> id item <> i) ->
  st_original (onDeleteClick (Some i) s) = st_original s.
Proof.
  intros Hfresh. unfold onDeleteClick.
  destruct (usableId (Some i)) as [a|] eqn:E; [|reflexivity].
  assert (a = i) as ->.
  { cbn in E. destruct (JS.truthy i); congruence. }
  rewrite st_original_commitOriginal. apply filter_keeps_all.
  intros item Hin. apply negb_true_iff. apply String.eqb_neq.
  now apply Hfresh.
Qed.

Lemma delete_of_unknown_id_keeps_original_witness :
  st_original (onDeleteClick (Some "99") Sample.loaded)
  = st_original Sample.loaded.
Proof.
  apply (delete_of_unknown_id_keeps_original Sample.loaded "99").
  intros item Hin. vm_compute in Hin.
  repeat (destruct Hin as [<-|Hin]; [discriminate|]). destruct Hin.
Defined.

(** Neither delete handler touches the current page. *)
Lemma delete_keeps_currentPage (s : State) (attr : option string) :
  currentPage (onDeleteSelectedClick s) = currentPage s
  /\ currentPage (onDeleteClick attr s) = currentPage s.
Proof.
  split; [reflexivity|]. unfold onDeleteClick.
  now destruct (usableId attr).
Qed.

(** C1, where the code departs from it. The directory of 25 records is
    loaded, the first row of page 1 is ticked, page 3 is opened and its
    five rows are ticked through the header checkbox: 3 pages, current
    page 3. [Delete Selected] then leaves 19 records and 2 pages, and the
    current page is still 3, with nothing to show. *)
Theorem delete_selected_leaves_page_past_the_last :
  exists s0 s1,
    run asciiLower
        [FetchSettles Sample.answer; RowCheckboxChange 0; PageButtonClick 2;
         HeaderCheckboxChange] mounted = Some s0
    /\ (JS.len (st_original s0), totalPages s0, currentPage s0) = (25, 3, 3)
    /\ JS.len (filter selected (st_original s0)) = 6
    /\ step asciiLower DeleteSelectedClick s0 = Some s1
    /\ reachable asciiLower s1
    /\ (JS.len (st_original s1), totalPages s1, currentPage s1) = (19, 2, 3)
    /\ st_list s1 = [].
Proof.
  eexists. eexists.
  split; [vm_compute; reflexivity|].
  split; [vm_compute; reflexivity|].
  split; [vm_compute; reflexivity|].
  split; [vm_compute; reflexivity|].
  split.
  - exists [FetchSettles Sample.answer; RowCheckboxChange 0; PageButtonClick 2;
            HeaderCheckboxChange; DeleteSelectedClick].
    vm_compute. reflexivity.
  - vm_compute. split; reflexivity.
Qed.

End Deleting.

(** ** Searching *)

Section Searching.
Import AdminUI ComponentFacts.
Local Open Scope string_scope.

(** C2 as stated fails: in the directory of 25 records the query ["ZOR"]
    matches two records, and after the search the list shown has these
    two, but the page count is still 3. *)
Lemma search_recomputes_pages_counterexample :
  JS.len (st_original Sample.searching) = 25
  /\ map id (filter (matchesSearch asciiLower "ZOR")
                    (st_original Sample.searching)) = ["8"; "15"]
  /\ ~ (JS.len (st_list (onSearchIconClick asciiLower Sample.searching)) = 2
        /\ totalPages (onSearchIconClick asciiLower Sample.searching) = 1
        /\ currentPage (onSearchIconClick asciiLower Sample.searching) = 1).
Proof.
  split; [reflexivity|]. split; [reflexivity|].
  intros (_ & Hpages & _). vm_compute in Hpages. discriminate.
Qed.

(** C2, amended. In a reachable state with 25 records in the canonical
    list, a search whose query matches exactly 2 of them shows exactly
    these 2 records; the canonical list is unchanged, the page count stays
    3, as it is counted on the canonical list, and the current page keeps
    its value. *)
Theorem search_shows_matches_and_keeps_pages
    (toLowerCase : string -> string) (s : State) :
  reachable toLowerCase s ->
  JS.len (st_original s) = 25 ->
  JS.len (filter (matchesSearch toLowerCase (st_searchText s))
                 (st_original s)) = 2 ->
  st_list (onSearchIconClick toLowerCase s)
  = filter (matchesSearch toLowerCase (st_searchText s)) (st_original s)
  /\ JS.len (st_list (onSearchIconClick toLowerCase s)) = 2
  /\ st_original (onSearchIconClick toLowerCase s) = st_original s
  /\ totalPages (onSearchIconClick toLowerCase s) = 3
  /\ currentPage (onSearchIconClick toLowerCase s) = currentPage s.
Proof.
  intros Hreach Hlen Hmatch.
  apply reachable_hooksInSync in Hreach.
  destruct Hreach as (_ & _ & _ & Htotal & Hsize & _).
  repeat split; try assumption.
  change (totalPages (onSearchIconClick toLowerCase s)) with (totalPages s).
  unfold totalPages, UsePagination.totalPages.
  rewrite Htotal, Hsize, Hlen. reflexivity.
Qed.

Lemma search_shows_matches_and_keeps_pages_witness :
  map id (st_list (onSearchIconClick asciiLower Sample.searching))
  = ["8"; "15"]
  /\ totalPages (onSearchIconClick asciiLower Sample.searching) = 3.
Proof.
  destruct (search_shows_matches_and_keeps_pages asciiLower Sample.searching)
    as (Hlist & _ & _ & Hpages & _).
  - exists [FetchSettles Sample.answer; SearchInput "ZOR"]. reflexivity.
  - reflexivity.
  - reflexivity.
  - split; [rewrite Hlist; reflexivity|exact Hpages].
Defined.

End Searching.

(** ** Editing *)

Section Editing.
Import AdminUI ComponentFacts.
Local Open Scope string_scope.

(** Saving never changes an id, the number of records or a selection
    flag. *)
Lemma save_keeps_ids_and_flags (s : State) :
  map (fun item => (id item, delete item)) (st_original (onSaveClick s))
  = map (fun item => (id item, delete item)) (st_original s).
Proof.
  unfold onSaveClick. cbn [st_original setRole setEmail setName setEditIndex].
  rewrite st_original_commitOriginal. unfold JS.mapi.
  rewrite (map_mapi_from (fun item => (id item, delete item))
                         (fun item => (id item, delete item))
                         (fun v _ => v)).
  - now apply mapi_from_id.
  - intros x j. now destruct (j =? _)%Z.
Qed.

(** Saving writes at one position of the canonical list, the current
    page's offset plus [editIndex], and nowhere else. *)
Lemma save_changes_one_position (s : State) (n : nat) :
  Z.of_nat n <> (currentPage s - 1) * PAGE_SIZE + st_editIndex s ->
  nth_error (st_original (onSaveClick s)) n = nth_error (st_original s) n.
Proof.
  intros Hn. unfold onSaveClick.
  cbn [st_original setRole setEmail setName setEditIndex].
  rewrite st_original_commitOriginal. unfold JS.mapi.
  rewrite nth_error_mapi_from. cbn [Z.add].
  destruct (nth_error (st_original s) n) as [item|]; [|reflexivity].
  cbn [option_map]. destruct (Z.of_nat n =? _)%Z eqn:E; [lia|reflexivity].
Qed.

(** C8, where the code departs from it. In the loaded directory the
    query ["ZOR"] is searched, which shows records 8 and 15; the second
    row, record 15, is put into edit mode, its name is changed and saved.
    The record that receives the draft is record 2, the one at position 1
    of the canonical list, and record 15 is as it was. *)
Theorem save_after_search_writes_another_record :
  exists s0 s1,
    run asciiLower
        [FetchSettles Sample.answer; SearchInput "ZOR"; SearchIconClick;
         EditClick 1; NameInput "Ned Parker"] mounted = Some s0
    /\ option_map id (editedRow s0) = Some "15"
    /\ step asciiLower SaveClick s0 = Some s1
    /\ map (fun item => (id item, name item, email item))
           (filter (fun item => String.eqb (id item) "2"
                                || String.eqb (id item) "15")
                   (st_original s1))
       = [("2", "Ned Parker", "razor@mailinator.com");
          ("15", "Ned Park", "razor@mailinator.com")].
Proof.
  eexists. eexists.
  split; [vm_compute; reflexivity|].
  split; [vm_compute; reflexivity|].
  split; vm_compute; reflexivity.
Qed.

End Editing.

(** ** Loading *)

Section Loading.
Import AdminUI.
Local Open Scope string_scope.

Lemma orElse_truthy (a b : string) :
  JS.truthy b = true -> JS.truthy (JS.orElse a b) = true.
Proof. now destruct a. Qed.

(** C9. When the request is aborted, before it resolves or while its
    body is read, [fetchData] leaves the error as it was, empty after
    mounting, keeps the canonical list and ends with [loading] off. A
    response that is not [ok] sets the error to its status text, or to
    the fixed text when the status text is empty, so to a text that is
    not empty; a rejected request sets it to the message of the error, or
    to the fallback text when what was thrown is not an error; each time
    [loading] ends off. *)
Theorem aborted_load_is_silent_and_failed_load_sets_error
    (s : State) (abortMsg statusText msg : string)
    (body : Fetch.Body (list TUser)) :
  (st_error (fetchData (Fetch.aborted abortMsg) s) = st_error s
   /\ st_error (fetchData (Fetch.aborted abortMsg) mounted) = ""
   /\ st_original (fetchData (Fetch.aborted abortMsg) s) = st_original s
   /\ st_loading (fetchData (Fetch.aborted abortMsg) s) = false)
  /\ (let r := Fetch.Responds true statusText
                 (Fetch.JsonThrows (Fetch.DOMException "AbortError" abortMsg))
      in st_error (fetchData r s) = st_error s
         /\ st_loading (fetchData r s) = false)
  /\ (let r := Fetch.Responds false statusText body in
      st_error (fetchData r s) = JS.orElse statusText "Something went wrong!"
      /\ JS.truthy (st_error (fetchData r s)) = true
      /\ st_loading (fetchData r s) = false)
  /\ (let r := Fetch.Rejects (Fetch.Error msg) in
      st_error (fetchData r s) = msg
      /\ st_loading (fetchData r s) = false)
  /\ (let r := Fetch.Rejects Fetch.NotAnError in
      st_error (fetchData r s) = "Error while fetching the data"
      /\ st_loading (fetchData r s) = false).
Proof.
  repeat split; try reflexivity.
  cbn. now apply orElse_truthy.
Qed.

(** The [useApiService] hook, which the component does not use, treats
    an aborted request in the same silent way, but dispatches nothing
    after [REQUEST]: its [loading] stays on. Its failures always carry a
    text that is not empty. *)
Lemma useApiService_aborted {T : Type} (payloadOf : T -> option T)
    (abortMsg : string) (s : UseApiService.State T) :
  UseApiServiceTrigger.trigger payloadOf (Fetch.aborted abortMsg) s
  = {| UseApiService.data := UseApiService.data s;
       UseApiService.error := None;
       UseApiService.loading := true |}.
Proof. reflexivity. Qed.

Lemma useApiService_failed {T : Type} (payloadOf : T -> option T)
    (r : Fetch.Result T) (err : Fetch.Thrown) (s : UseApiService.State T) :
  Fetch.tryBlock r = inl err -> Fetch.isAbortError err = false ->
  exists text,
    UseApiService.error (UseApiServiceTrigger.trigger payloadOf r s)
    = Some text
    /\ JS.truthy text = true
    /\ UseApiService.loading (UseApiServiceTrigger.trigger payloadOf r s)
       = false.
Proof.
  intros Htry Habort. unfold UseApiServiceTrigger.trigger.
  rewrite Htry, Habort. eexists. cbn. split; [reflexivity|].
  split; [|reflexivity]. now apply orElse_truthy.
Qed.

End Loading.

(* ================================================================== *)
(** * Further properties of the hooks and the handlers *)

(** ** [range] and the page count *)

Section RangeAndPageCount.
Import UsePagination RangeFacts.

Lemma In_range (a b x : Z) : a <= x <= b -> In x (range a b).
Proof.
  intros H. unfold range. destruct (a >? b) eqn:E; [lia|].
  apply in_map_iff. exists (Z.to_nat (x - a)). split; [lia|].
  apply in_seq. lia.
Qed.

Lemma length_range (a b : Z) : length (range a b) = Z.to_nat (b - a + 1).
Proof.
  unfold range. destruct (a >? b) eqn:E.
  - cbn. lia.
  - now rewrite length_map, length_seq.
Qed.

(** X1. [range(start, end)] lists exactly the integers from [start] to
    [end], each once and in increasing order; it has [end - start + 1]
    entries, none when [start > end]. *)
Theorem range_lists_the_interval (a b : Z) :
  (forall x, In x (range a b) <-> a <= x <= b)
  /\ StronglySorted Z.lt (range a b)
  /\ Z.of_nat (length (range a b)) = Z.max (b - a + 1) 0.
Proof.
  split; [|split].
  - intros x. split; [apply range_In|apply In_range].
  - apply range_sorted.
  - rewrite length_range. lia.
Qed.

Lemma ceilDiv_bounds (n size : Z) :
  0 < size ->
  (ceilDiv n size - 1) * size < n <= ceilDiv n size * size.
Proof.
  intros Hs. unfold ceilDiv.
  pose proof (Z.mul_div_le (- n) size Hs).
  pose proof (Z.mul_succ_div_gt (- n) size Hs). nia.
Qed.

(** X2. For a positive page size and a count that is not negative, the
    page count is 1 when the items fit on one page (also when there are
    none), and otherwise the least number of pages that holds them all. *)
Theorem totalPages_is_least_cover (total_ size : Z) :
  0 < size -> 0 <= total_ ->
  (totalPagesOf total_ size = 1 /\ total_ <= size)
  \/ (1 < totalPagesOf total_ size
      /\ (totalPagesOf total_ size - 1) * size < total_
         <= totalPagesOf total_ size * size).
Proof.
  intros Hs Ht. unfold totalPagesOf.
  pose proof (ceilDiv_bounds total_ size Hs) as Hc.
  destruct (Z_le_gt_dec (ceilDiv total_ size) 1) as [Hle|Hgt].
  - left. split; [lia|]. nia.
  - right. rewrite Z.max_l by lia. split; [lia|exact Hc].
Qed.

Lemma totalPages_is_least_cover_witness :
  (totalPagesOf 25 10 = 1 /\ 25 <= 10)
  \/ (1 < totalPagesOf 25 10
      /\ (totalPagesOf 25 10 - 1) * 10 < 25 <= totalPagesOf 25 10 * 10).
Proof.
  apply (totalPages_is_least_cover 25 10); lia.
Defined.




End RangeAndPageCount.

(** ** More on the page window *)

Section PageWindowContents.
Import UsePagination RangeFacts WindowFacts.

Ltac window_bounds :=
  unfold siblingsStart, siblingsEnd, boundaryCount, siblingCount in *.

Lemma endPages_last (tp : Z) : 2 <= tp -> endPages tp = [tp].
Proof.
  intros H. unfold endPages, boundaryCount.
  rewrite Z.max_l by lia. replace (tp - 1 + 1) with tp by lia.
  rewrite range_cons by lia. now rewrite range_empty by lia.
Qed.

Lemma endPages_single : endPages 1 = [].
Proof. reflexivity. Qed.

Lemma length_gap (c : bool) :
  length (if c then [dotsToken] else []) = if c then 1%nat else 0%nat.
Proof. now destruct c. Qed.

(** X5. With the current page in range the pagination bar has one entry
    per page up to 7 pages, and exactly 7 entries from then on. *)
Theorem pagination_window_size (cp tp : Z) :
  1 <= tp -> 1 <= cp <= tp ->
  Z.of_nat (length (paginationOf cp tp)) = Z.min tp 7.
Proof.
  intros Htp Hcp. unfold paginationOf.
  rewrite !length_app, !length_map, !length_gap, !length_range.
  unfold endPages, startPages. rewrite !length_range.
  destruct (siblingsStart cp tp >? boundaryCount + 1) eqn:E1;
    destruct (siblingsEnd cp tp <? tp - boundaryCount) eqn:E2;
    window_bounds; lia.
Qed.

Lemma pagination_window_size_witness :
  Z.of_nat (length (paginationOf 5 10)) = Z.min 10 7.
Proof.
  apply (pagination_window_size 5 10); lia.
Defined.

(** X6. With the current page in range the pagination bar always offers
    page 1, the last page, the current page and the pages right before
    and right after the current one, and no page outside
    [1 .. totalPages]. *)
Theorem pagination_window_contents (cp tp : Z) :
  1 <= tp -> 1 <= cp <= tp ->
  In 1 (pageNumbers (paginationOf cp tp))
  /\ In tp (pageNumbers (paginationOf cp tp))
  /\ In cp (pageNumbers (paginationOf cp tp))
  /\ (1 <= cp - 1 -> In (cp - 1) (pageNumbers (paginationOf cp tp)))
  /\ (cp + 1 <= tp -> In (cp + 1) (pageNumbers (paginationOf cp tp)))
  /\ (forall p, In p (pageNumbers (paginationOf cp tp)) -> 1 <= p <= tp).
Proof.
  intros Htp Hcp.
  rewrite pageNumbers_paginationOf, startPages_one by lia.
  assert (Hpage : forall p, 1 <= p <= tp ->
            cp - 1 <= p <= cp + 1 \/ p = 1 \/ p = tp ->
            In p ([1] ++ range (siblingsStart cp tp) (siblingsEnd cp tp)
                      ++ endPages tp)).
  { intros p Hp Hnear. rewrite !in_app_iff.
    destruct (Z.eq_dec p 1) as [Hp1|Hp1]; [left; left; congruence|].
    right. destruct (Z.eq_dec p tp) as [Hptp|Hptp].
    - right. rewrite endPages_last by lia. left. congruence.
    - left. apply In_range. window_bounds. lia. }
  do 5 (split; [intros; apply Hpage; lia|]).
  intros p H. rewrite !in_app_iff in H.
  destruct H as [[<-|[]]|[H|H]]; [lia| |]; apply range_In in H;
    window_bounds; lia.
Qed.

Lemma pagination_window_contents_witness :
  In 1 (pageNumbers (paginationOf 5 10))
  /\ In 10 (pageNumbers (paginationOf 5 10))
  /\ In 5 (pageNumbers (paginationOf 5 10)).
Proof.
  destruct (pagination_window_contents 5 10) as (H1 & H2 & H3 & _);
    [lia|lia|].
  repeat split; assumption.
Defined.

Lemma filter_selected_pages (cp : Z) (l : list Z) :
  filter isSelected (map (pageToken cp) l)
  = map (pageToken cp) (filter (fun p => p =? cp) l).
Proof.
  induction l as [|p l IH]; cbn; [reflexivity|].
  destruct (p =? cp); cbn; now rewrite IH.
Qed.

Lemma filter_selected_gap (c : bool) :
  filter isSelected (if c then [dotsToken] else []) = [].
Proof. now destruct c. Qed.

Lemma filter_eqb_sorted (cp : Z) (l : list Z) :
  StronglySorted Z.lt l -> In cp l -> filter (fun p => p =? cp) l = [cp].
Proof.
  induction 1 as [|a l Hs IH Ha]; intros Hin; [destruct Hin|].
  rewrite Forall_forall in Ha. cbn.
  destruct (a =? cp) eqn:E.
  - apply Z.eqb_eq in E. subst a. f_equal.
    apply filter_none. intros x Hx. apply Z.eqb_neq.
    specialize (Ha x Hx). lia.
  - destruct Hin as [->|Hin]; [rewrite Z.eqb_refl in E; discriminate|].
    now apply IH.
Qed.

(** X7. With the current page in range exactly one entry of the
    pagination bar is highlighted, and it is the entry of the current
    page; a "..." entry never is. *)
Theorem pagination_selects_the_current_page (cp tp : Z) :
  1 <= tp -> 1 <= cp <= tp ->
  filter isSelected (paginationOf cp tp)
  = [ {| value := PageNumber cp; isSelected := true |} ].
Proof.
  intros Htp Hcp.
  assert (Hfilter :
            filter isSelected (paginationOf cp tp)
            = map (pageToken cp)
                  (filter (fun p => p =? cp)
                          (pageNumbers (paginationOf cp tp)))).
  { rewrite pageNumbers_paginationOf. unfold paginationOf.
    rewrite !filter_app, !filter_selected_pages, !filter_selected_gap.
    now rewrite !map_app. }
  rewrite Hfilter, filter_eqb_sorted.
  - cbn. unfold pageToken. now rewrite Z.eqb_refl.
  - rewrite pageNumbers_paginationOf, startPages_one by lia.
    change ([1] ++ ?l) with (1 :: l). constructor.
    + apply StronglySorted_app; try apply range_sorted.
      intros x y Hx Hy. apply range_In in Hx, Hy. window_bounds. lia.
    + apply Forall_forall. intros y Hy.
      apply in_app_or in Hy.
      destruct Hy as [Hy|Hy]; apply range_In in Hy; window_bounds; lia.
  - rewrite pageNumbers_paginationOf, startPages_one by lia.
    rewrite !in_app_iff.
    destruct (Z.eq_dec cp 1) as [Hcp1|Hcp1]; [left; left; congruence|].
    right. destruct (Z.eq_dec cp tp) as [Hcptp|Hcptp].
    + right. rewrite endPages_last by lia. left. congruence.
    + left. apply In_range. window_bounds. lia.
Qed.

Lemma pagination_selects_the_current_page_witness :
  filter isSelected (paginationOf 5 10)
  = [ {| value := PageNumber 5; isSelected := true |} ].
Proof.
  apply (pagination_selects_the_current_page 5 10); lia.
Defined.

(** X8. Up to 6 pages the pagination bar lists every page and has no
    "..." entry, whatever the current page is. *)
Theorem pagination_lists_every_page_up_to_six (cp tp : Z) :
  1 <= tp <= 6 ->
  paginationOf cp tp = map (pageToken cp) (range 1 tp).
Proof.
  intros Htp. unfold paginationOf.
  replace (siblingsStart cp tp) with 2 by (window_bounds; lia).
  replace (siblingsEnd cp tp) with (tp - 1) by (window_bounds; lia).
  assert (Hcases : tp = 1 \/ tp = 2 \/ tp = 3 \/ tp = 4 \/ tp = 5 \/ tp = 6)
    by lia.
  destruct Hcases as [->|[->|[->|[->|[->| ->]]]]]; reflexivity.
Qed.

Lemma pagination_lists_every_page_up_to_six_witness :
  paginationOf 2 3 = map (pageToken 2) (range 1 3).
Proof.
  apply (pagination_lists_every_page_up_to_six 2 3). lia.
Defined.

End PageWindowContents.

(** ** Sizes of the page slices *)

Section PageSliceSizes.
Context {T : Type}.
Import UsePaginatedList.

(** X9. For a page index that is not negative and a positive page size,
    a page holds [pageSize] items as long as that many are left after the
    pages before it, the items that are left otherwise, and none once the
    list is used up. *)
Theorem page_slice_size (items : list T) (pageIndex size : Z) :
  0 <= pageIndex -> 0 < size ->
  JS.len (pageSlice items pageIndex size)
  = Z.min size (Z.max (JS.len items - pageIndex * size) 0).
Proof.
  intros Hi Hs. rewrite pageSlice_firstn_skipn by assumption.
  unfold JS.len. rewrite length_firstn, length_skipn. nia.
Qed.

End PageSliceSizes.

Lemma page_slice_size_witness :
  JS.len (UsePaginatedList.pageSlice [1; 2; 3; 4; 5] 2 2)
  = Z.min 2 (Z.max (JS.len [1; 2; 3; 4; 5] - 2 * 2) 0).
Proof.
  apply (page_slice_size [1; 2; 3; 4; 5] 2 2); lia.
Defined.

(** ** What every reachable state of the component satisfies *)

Section ReachableStates.
Import AdminUI ComponentFacts.
Variable toLowerCase : string -> string.

Lemma paginatedList_in_sync (s : State) :
  hooksInSync s ->
  paginatedList s
  = UsePaginatedList.pageSlice (st_original s) (currentPage s - 1) PAGE_SIZE.
Proof.
  intros (Ho & Hc & Hp & _). unfold paginatedList.
  destruct (paginated s) as [o c p]. cbn in *. now subst.
Qed.

Lemma st_list_commitOriginal_in_sync (v : list TUser) (s : State) :
  hooksInSync s ->
  st_list (commitOriginal v s)
  = UsePaginatedList.pageSlice v (currentPage s - 1) PAGE_SIZE.
Proof.
  intros (Ho & Hc & Hp & _). rewrite st_list_commitOriginal.
  destruct (paginated s) as [o c p]. cbn in *. now subst.
Qed.

(** X10. In every state the component can reach, the pagination hook
    counts the canonical list, so the page count is the one of the
    canonical list at 10 per page; the slice hook holds the current page
    of the canonical list; and the current page is at least 1. *)
Theorem reachable_state_is_in_sync (s : State) :
  reachable toLowerCase s ->
  UsePagination.total (pages s) = JS.len (st_original s)
  /\ totalPages s
     = UsePagination.totalPagesOf (JS.len (st_original s)) PAGE_SIZE
  /\ paginatedList s
     = UsePaginatedList.pageSlice (st_original s) (currentPage s - 1)
                                  PAGE_SIZE
  /\ 1 <= currentPage s.
Proof.
  intros Hreach. apply reachable_hooksInSync in Hreach.
  pose proof (paginatedList_in_sync s Hreach) as Hslice.
  destruct Hreach as (_ & _ & _ & Htotal & Hsize & Hcp).
  repeat split; try assumption.
  unfold totalPages, UsePagination.totalPages. now rewrite Htotal, Hsize.
Qed.

Lemma showsPageOrMatches_commitOriginal (v : list TUser) (s : State) :
  showsPageOrMatches toLowerCase (commitOriginal v s).
Proof. left. reflexivity. Qed.

Lemma showsPageOrMatches_commitPage
    (nav : UsePagination.State -> UsePagination.State) (s : State) :
  showsPageOrMatches toLowerCase s ->
  showsPageOrMatches toLowerCase (commitPage nav s).
Proof.
  intros H. unfold commitPage.
  destruct (_ =? _); [exact H|]. left. reflexivity.
Qed.

Lemma showsPageOrMatches_step (e : Event) (s s' : State) :
  step toLowerCase e s = Some s' ->
  showsPageOrMatches toLowerCase s -> showsPageOrMatches toLowerCase s'.
Proof.
  intros Hstep H. destruct e; cbn [step] in Hstep;
    repeat match type of Hstep with
           | (if ?c then _ else _) = _ => destruct c eqn:?
           | match ?c with _ => _ end = _ => destruct c eqn:?
           end;
    try discriminate; injection Hstep as <-;
    try exact H;
    try apply showsPageOrMatches_commitPage; try exact H.
  - (* the request settles *)
    unfold fetchData. destruct (Fetch.tryBlock r) as [err|payload].
    + destruct (Fetch.isAbortError err); exact H.
    + left. reflexivity.
  - right. exists (st_searchText s). reflexivity.
  - left. reflexivity.
  - unfold onCheckboxClick. destruct (usableId _); [left; reflexivity|exact H].
  - left. reflexivity.
  - unfold onDeleteClick. destruct (usableId _); [left; reflexivity|exact H].
  - unfold onEditClick. destruct (usableId _); [|exact H].
    destruct (_ <? 0); [exact H|]. destruct (nth_error _ _); exact H.
  - left. reflexivity.
  - unfold onPageClick. destruct (UsePagination.value _); [|exact H].
    now apply showsPageOrMatches_commitPage.
Qed.

Lemma showsPageOrMatches_run (events : list Event) (s s' : State) :
  run toLowerCase events s = Some s' ->
  showsPageOrMatches toLowerCase s -> showsPageOrMatches toLowerCase s'.
Proof.
  revert s; induction events as [|e events IH]; intros s Hrun H; cbn in Hrun.
  - now injection Hrun as <-.
  - destruct (step toLowerCase e s) as [s1|] eqn:E; [|discriminate].
    eapply IH; [exact Hrun|]. eapply showsPageOrMatches_step; eauto.
Qed.

Lemma displayed_in_original (s : State) :
  hooksInSync s -> showsPageOrMatches toLowerCase s ->
  forall item, In item (st_list s) -> In item (st_original s).
Proof.
  intros Hsync [Hpage|[query Hmatch]] item Hin.
  - rewrite Hpage, paginatedList_in_sync in Hin by assumption.
    unfold UsePaginatedList.pageSlice, UsePaginatedList.paginatedList in Hin.
    cbn in Hin. eapply In_slice, Hin.
  - rewrite Hmatch in Hin. now apply filter_In in Hin.
Qed.

Lemma reachable_displayed_in_original (s : State) :
  reachable toLowerCase s ->
  forall item, In item (st_list s) -> In item (st_original s).
Proof.
  intros Hreach. apply displayed_in_original.
  - now apply reachable_hooksInSync in Hreach.
  - destruct Hreach as [events Hrun].
    eapply showsPageOrMatches_run; [exact Hrun|]. left. reflexivity.
Qed.

(** X11. In every state the component can reach, the table shows either
    the current page of the canonical list or all the matches of some
    query in the canonical list; so every record shown is a record of
    the canonical list. *)
Theorem reachable_state_shows_page_or_matches (s : State) :
  reachable toLowerCase s ->
  (st_list s
   = UsePaginatedList.pageSlice (st_original s) (currentPage s - 1) PAGE_SIZE
   \/ exists query,
        st_list s = filter (matchesSearch toLowerCase query) (st_original s))
  /\ (forall item, In item (st_list s) -> In item (st_original s)).
Proof.
  intros Hreach. split; [|now apply reachable_displayed_in_original].
  pose proof (reachable_hooksInSync toLowerCase s Hreach) as Hsync.
  destruct Hreach as [events Hrun].
  assert (H : showsPageOrMatches toLowerCase s).
  { eapply showsPageOrMatches_run; [exact Hrun|]. left. reflexivity. }
  destruct H as [H|H]; [left|right; exact H].
  now rewrite H, paginatedList_in_sync.
Qed.

End ReachableStates.

Lemma reachable_state_is_in_sync_witness :
  UsePagination.total (AdminUI.pages Sample.loaded) = 25
  /\ AdminUI.totalPages Sample.loaded = 3.
Proof.
  destruct (reachable_state_is_in_sync asciiLower Sample.loaded)
    as (Htotal & Hpages & _).
  - exists [AdminUI.FetchSettles Sample.answer]. reflexivity.
  - split; [rewrite Htotal|rewrite Hpages]; reflexivity.
Defined.

Lemma reachable_state_shows_page_or_matches_witness :
  AdminUI.st_list (AdminUI.onSearchIconClick asciiLower Sample.searching)
  = UsePaginatedList.pageSlice
      (AdminUI.st_original
         (AdminUI.onSearchIconClick asciiLower Sample.searching))
      (AdminUI.currentPage
         (AdminUI.onSearchIconClick asciiLower Sample.searching) - 1)
      AdminUI.PAGE_SIZE
  \/ exists query,
       AdminUI.st_list (AdminUI.onSearchIconClick asciiLower Sample.searching)
       = filter (AdminUI.matchesSearch asciiLower query)
                (AdminUI.st_original
                   (AdminUI.onSearchIconClick asciiLower Sample.searching)).
Proof.
  apply (reachable_state_shows_page_or_matches asciiLower
           (AdminUI.onSearchIconClick asciiLower Sample.searching)).
  exists [AdminUI.FetchSettles Sample.answer; AdminUI.SearchInput "ZOR"%string;
          AdminUI.SearchIconClick].
  vm_compute. reflexivity.
Defined.

(** ** Handlers never add a record *)

Section NoNewRecords.
Import AdminUI ComponentFacts.
Variable toLowerCase : string -> string.

Lemma filter_all {A : Type} (l : list A) : filter (fun _ => true) l = l.
Proof. induction l as [|x l IH]; cbn; [reflexivity|now rewrite IH]. Qed.

Lemma ids_kept_same (before after : list TUser) :
  map id after = map id before ->
  exists keep, map id after = map id (filter keep before).
Proof. intros H. exists (fun _ => true). now rewrite filter_all. Qed.

Lemma ids_mapi (f : TUser -> Z -> TUser) (l : list TUser) :
  (forall item index, id (f item index) = id item) ->
  map id (JS.mapi f l) = map id l.
Proof.
  intros Hf. unfold JS.mapi.
  rewrite (map_mapi_from id id (fun v _ => v)) by exact Hf.
  now apply mapi_from_id.
Qed.

Lemma NoDup_map_filter {A B : Type} (g : A -> B) (keep : A -> bool)
    (l : list A) :
  NoDup (map g l) -> NoDup (map g (filter keep l)).
Proof.
  induction l as [|x l IH]; cbn; intros H; [constructor|].
  inversion H as [|y l' Hnotin Hnodup]; subst.
  destruct (keep x); cbn; [|now apply IH].
  constructor; [|now apply IH].
  intros Hin. apply Hnotin. apply in_map_iff in Hin.
  destruct Hin as (z & Hz & Hin). apply filter_In in Hin.
  apply in_map_iff. exists z. tauto.
Qed.

Lemma length_map_filter_le {A B : Type} (g : A -> B) (keep : A -> bool)
    (l : list A) :
  (length (map g (filter keep l)) <= length l)%nat.
Proof. rewrite length_map. apply filter_length_le. Qed.

Lemma ids_kept_step (e : Event) (s s' : State) :
  isFetchSettles e = false ->
  step toLowerCase e s = Some s' ->
  exists keep,
    map id (st_original s') = map id (filter keep (st_original s)).
Proof.
  intros He Hstep. destruct e; try discriminate He; cbn [step] in Hstep;
    repeat match type of Hstep with
           | (if ?c then _ else _) = _ => destruct c eqn:?
           | match ?c with _ => _ end = _ => destruct c eqn:?
           end;
    try discriminate; injection Hstep as <-;
    try (apply ids_kept_same; reflexivity).
  - unfold onCheckboxClick. destruct (usableId _);
      [|apply ids_kept_same; reflexivity].
    rewrite st_original_commitOriginal. apply ids_kept_same, ids_mapi.
    intros item index.
    destruct (String.eqb _ _); [|destruct (String.eqb _ _)]; reflexivity.
  - unfold onCheckboxClick. destruct (usableId _);
      [|apply ids_kept_same; reflexivity].
    rewrite st_original_commitOriginal. apply ids_kept_same, ids_mapi.
    intros item index.
    destruct (String.eqb _ _); [|destruct (String.eqb _ _)]; reflexivity.
  - eexists. unfold onDeleteSelectedClick.
    rewrite st_original_commitOriginal. reflexivity.
  - unfold onDeleteClick. destruct (usableId _);
      [|apply ids_kept_same; reflexivity].
    eexists. rewrite st_original_commitOriginal. reflexivity.
  - unfold onEditClick. destruct (usableId _);
      [|apply ids_kept_same; reflexivity].
    destruct (_ <? 0); [apply ids_kept_same; reflexivity|].
    destruct (nth_error _ _); apply ids_kept_same; reflexivity.
  - apply ids_kept_same. unfold onSaveClick.
    cbn [st_original setRole setEmail setName setEditIndex].
    rewrite st_original_commitOriginal. apply ids_mapi.
    intros item index. now destruct (index =? _).
  - unfold onPageClick. destruct (UsePagination.value _);
      [|apply ids_kept_same; reflexivity].
    apply ids_kept_same. unfold goToPage, commitPage.
    now destruct (_ =? _).
  - apply ids_kept_same. unfold firstPage, commitPage. now destruct (_ =? _).
  - apply ids_kept_same. unfold previousPage, commitPage.
    now destruct (_ =? _).
  - apply ids_kept_same. unfold nextPage, commitPage. now destruct (_ =? _).
  - apply ids_kept_same. unfold lastPage, commitPage. now destruct (_ =? _).
Qed.

(** X12. No handler of the component adds a record or changes an id:
    after any event other than the request settling, the ids of the
    canonical list are the ids it had before with some records left out,
    in the same order. So the list does not grow, and ids that were
    pairwise different stay so. *)
Theorem handlers_never_add_records (e : Event) (s s' : State) :
  isFetchSettles e = false ->
  step toLowerCase e s = Some s' ->
  (exists keep,
      map id (st_original s') = map id (filter keep (st_original s)))
  /\ JS.len (st_original s') <= JS.len (st_original s)
  /\ (NoDup (map id (st_original s)) -> NoDup (map id (st_original s'))).
Proof.
  intros He Hstep.
  destruct (ids_kept_step e s s' He Hstep) as [keep Hkeep].
  split; [now exists keep|]. split.
  - unfold JS.len. rewrite <- (length_map id (st_original s')), Hkeep.
    pose proof (length_map_filter_le id keep (st_original s)). lia.
  - intros Hnodup. rewrite Hkeep. now apply NoDup_map_filter.
Qed.

End NoNewRecords.

Lemma handlers_never_add_records_witness :
  JS.len (AdminUI.st_original
            (AdminUI.onDeleteClick (Some "3"%string) Sample.loaded))
  <= JS.len (AdminUI.st_original Sample.loaded).
Proof.
  apply (handlers_never_add_records asciiLower (AdminUI.DeleteClick 2)
           Sample.loaded).
  - reflexivity.
  - reflexivity.
Defined.

(** ** The checkboxes, as the table shows them *)

Section Checkboxes.
Import AdminUI ComponentFacts.
Variable toLowerCase : string -> string.

Lemma skipn_mapi_from {A B : Type} (f : A -> Z -> B) (l : list A) (i : Z)
    (k : nat) :
  skipn k (JS.mapi_from i f l) = JS.mapi_from (i + Z.of_nat k) f (skipn k l).
Proof.
  revert i l; induction k as [|k IH]; intros i l.
  - cbn. now rewrite Z.add_0_r.
  - destruct l as [|x l]; [reflexivity|]. cbn [skipn JS.mapi_from].
    rewrite IH. f_equal. lia.
Qed.

Lemma firstn_mapi_from {A B : Type} (f : A -> Z -> B) (l : list A) (i : Z)
    (k : nat) :
  firstn k (JS.mapi_from i f l) = JS.mapi_from i f (firstn k l).
Proof.
  revert i l; induction k as [|k IH]; intros i l; [reflexivity|].
  destruct l as [|x l]; [reflexivity|]. cbn [firstn JS.mapi_from].
  now rewrite IH.
Qed.

Lemma map_mapi_from_bounded {A B C : Type} (g : B -> C) (h : A -> C)
    (f : A -> Z -> B) (l : list A) (i : Z) :
  (forall x j, i <= j < i + JS.len l -> g (f x j) = h x) ->
  map g (JS.mapi_from i f l) = map h l.
Proof.
  revert i; induction l as [|x l IH]; intros i Hf; [reflexivity|].
  unfold JS.len in *. cbn [JS.mapi_from map length] in *. f_equal.
  - apply Hf. lia.
  - apply IH. intros y j Hj. apply Hf. lia.
Qed.

(** The page of a list mapped with its indices is the mapped page. *)
Lemma pageSlice_mapi {A : Type} (f : A -> Z -> A) (l : list A) (page : Z) :
  1 <= page ->
  UsePaginatedList.pageSlice (JS.mapi f l) (page - 1) PAGE_SIZE
  = JS.mapi_from ((page - 1) * PAGE_SIZE) f
      (UsePaginatedList.pageSlice l (page - 1) PAGE_SIZE).
Proof.
  intros Hp. unfold PAGE_SIZE.
  rewrite !pageSlice_firstn_skipn by lia. unfold JS.mapi.
  rewrite skipn_mapi_from, firstn_mapi_from. f_equal. lia.
Qed.

(** X13. In a reachable state, changing the header checkbox puts the
    current page of the canonical list back into the table, the same
    records in the same order, with the tick of every one of them
    inverted: a page that was fully ticked comes out unticked, and a page
    with no tick comes out fully ticked. *)
Theorem header_checkbox_inverts_the_page (s : State) :
  reachable toLowerCase s ->
  map id (st_list (onCheckboxClick (Some "all"%string) s))
  = map id (paginatedList s)
  /\ map selected (st_list (onCheckboxClick (Some "all"%string) s))
     = map negb (map selected (paginatedList s)).
Proof.
  intros Hreach. apply reachable_hooksInSync in Hreach.
  assert (Hcp : 1 <= currentPage s) by apply Hreach.
  assert (Hlist :
            st_list (onCheckboxClick (Some "all"%string) s)
            = JS.mapi_from ((currentPage s - 1) * PAGE_SIZE)
                (flipOnPage (currentPage s)) (paginatedList s)).
  { change (onCheckboxClick (Some "all"%string) s)
      with (commitOriginal
              (JS.mapi (flipOnPage (currentPage s)) (st_original s)) s).
    rewrite st_list_commitOriginal_in_sync, pageSlice_mapi by assumption.
    now rewrite <- paginatedList_in_sync. }
  rewrite Hlist. split.
  - rewrite (map_mapi_from id id (fun v _ => v)) by reflexivity.
    now apply mapi_from_id.
  - rewrite map_map. apply map_mapi_from_bounded. intros item index Hindex.
    assert (Hlen : JS.len (paginatedList s) <= PAGE_SIZE).
    { rewrite paginatedList_in_sync by assumption.
      unfold JS.len, PAGE_SIZE. rewrite pageSlice_firstn_skipn by lia.
      rewrite length_firstn. lia. }
    unfold flipOnPage, selected at 1, isInCurrentPage. cbn [delete withDelete].
    replace (index >=? _) with true by (symmetry; apply Z.geb_le; lia).
    replace (index <? _) with true
      by (symmetry; apply Z.ltb_lt; unfold PAGE_SIZE in *; lia).
    reflexivity.
Qed.

End Checkboxes.

Lemma header_checkbox_inverts_the_page_witness :
  map AdminUI.selected
      (AdminUI.st_list (AdminUI.onCheckboxClick (Some "all"%string)
                                                Sample.loaded))
  = map negb (map AdminUI.selected (AdminUI.paginatedList Sample.loaded)).
Proof.
  apply (header_checkbox_inverts_the_page asciiLower Sample.loaded).
  exists [AdminUI.FetchSettles Sample.answer]. reflexivity.
Defined.

(** ** Single rows: tick, delete, edit, save *)

Section SingleRows.
Import AdminUI ComponentFacts.
Local Open Scope string_scope.
Variable toLowerCase : string -> string.

Lemma usableId_nonempty (a : string) : a <> "" -> usableId (Some a) = Some a.
Proof. intros H. cbn. destruct a; [congruence|reflexivity]. Qed.

Lemma filter_length_lt {A : Type} (f : A -> bool) (l : list A) (x : A) :
  In x l -> f x = false -> (length (filter f l) < length l)%nat.
Proof.
  induction l as [|y l IH]; intros Hin Hx; [destruct Hin|].
  cbn. pose proof (filter_length_le f l).
  destruct Hin as [->|Hin].
  - rewrite Hx. lia.
  - specialize (IH Hin Hx). destruct (f y); cbn; lia.
Qed.

(** X14. A row checkbox whose id is neither empty nor ["all"] negates
    the tick of the records with that id and leaves every other record,
    and every other field, as it was; changing it twice restores the
    ticks. *)
Theorem row_checkbox_toggles_its_records (s : State) (a : string) :
  a <> "" -> a <> "all" ->
  map rowView (st_original (onCheckboxClick (Some a) s))
  = map (fun item =>
           (id item, name item, email item, role item,
            if String.eqb (id item) a then negb (selected item)
            else selected item))
        (st_original s)
  /\ map rowView
         (st_original (onCheckboxClick (Some a) (onCheckboxClick (Some a) s)))
     = map rowView (st_original s).
Proof.
  intros Ha Hall.
  assert (Horig : forall s0,
            st_original (onCheckboxClick (Some a) s0)
            = JS.mapi (fun item _ =>
                         if String.eqb (id item) a
                         then withDelete (Some (negb (selected item))) item
                         else item)
                      (st_original s0)).
  { intros s0. unfold onCheckboxClick. rewrite usableId_nonempty by exact Ha.
    rewrite st_original_commitOriginal. unfold JS.mapi.
    apply mapi_from_ext. intros item index.
    apply String.eqb_neq in Hall. now rewrite Hall. }
  split.
  - rewrite Horig. unfold JS.mapi.
    rewrite (map_mapi_from rowView (fun item => item) (fun item _ =>
               (id item, name item, email item, role item,
                if String.eqb (id item) a then negb (selected item)
                else selected item))).
    + rewrite map_id. generalize 0%Z.
      induction (st_original s) as [|x l IH]; intros i; cbn;
        [reflexivity|now rewrite IH].
    + intros item index. unfold rowView.
      destruct (String.eqb (id item) a); reflexivity.
  - rewrite !Horig. unfold JS.mapi. rewrite mapi_from_mapi_from.
    rewrite (map_mapi_from rowView rowView (fun v _ => v)).
    + now apply mapi_from_id.
    + intros item index. unfold rowView.
      destruct (String.eqb (id item) a) eqn:E; cbn; [|now rewrite E].
      rewrite E. cbn. unfold selected at 1. cbn.
      now rewrite negb_involutive.
Qed.

Lemma row_checkbox_toggles_its_records_witness :
  map rowView
      (st_original (onCheckboxClick (Some "3")
                      (onCheckboxClick (Some "3") Sample.loaded)))
  = map rowView (st_original Sample.loaded).
Proof.
  apply (row_checkbox_toggles_its_records Sample.loaded "3"); discriminate.
Defined.

(** X15. In a reachable state, the delete button of a row that is shown,
    with an id that is not empty, removes from the canonical list every
    record with the id of that row, so at least one record; the records
    with another id stay, in their order. *)
Theorem delete_click_removes_the_row (s : State) (row : nat) (item : TUser) :
  reachable toLowerCase s ->
  renderedRow row s = Some item ->
  id item <> "" ->
  (forall other,
      In other (st_original (onDeleteClick (Some (id item)) s)) ->
      id other <> id item)
  /\ filter (fun other => negb (String.eqb (id other) (id item)))
            (st_original (onDeleteClick (Some (id item)) s))
     = filter (fun other => negb (String.eqb (id other) (id item)))
              (st_original s)
  /\ JS.len (st_original (onDeleteClick (Some (id item)) s))
     < JS.len (st_original s).
Proof.
  intros Hreach Hrow Hid. unfold onDeleteClick.
  rewrite usableId_nonempty by exact Hid.
  rewrite st_original_commitOriginal. split; [|split].
  - intros other Hin. apply filter_In in Hin. destruct Hin as [_ Hin].
    apply negb_true_iff in Hin. now apply String.eqb_neq.
  - apply filter_idempotent.
  - unfold JS.len. apply inj_lt. apply (filter_length_lt _ _ item).
    + apply (reachable_displayed_in_original toLowerCase s Hreach).
      unfold renderedRow in Hrow. destruct (st_loading s); [discriminate|].
      eapply nth_error_In, Hrow.
    + now rewrite String.eqb_refl.
Qed.

End SingleRows.

Lemma delete_click_removes_the_row_witness :
  JS.len (AdminUI.st_original
            (AdminUI.onDeleteClick (Some "3"%string) Sample.loaded))
  < JS.len (AdminUI.st_original Sample.loaded).
Proof.
  apply (delete_click_removes_the_row asciiLower Sample.loaded 2
           (Sample.fresh "3" "Arvind Kumar" "arvind@mailinator.com"
                         AdminUI.admin)).
  - exists [AdminUI.FetchSettles Sample.answer]. reflexivity.
  - reflexivity.
  - discriminate.
Defined.

(** ** The edit session *)

Section EditSession.
Import AdminUI ComponentFacts.
Local Open Scope string_scope.
Variable toLowerCase : string -> string.

Lemma findIndex_from_absent {A : Type} (p : A -> bool) (l : list A) (i : Z) :
  (forall x, In x l -> p x = false) -> JS.findIndex_from i p l = (-1)%Z.
Proof.
  revert i; induction l as [|x l IH]; intros i H; [reflexivity|].
  cbn. rewrite (H x) by now left. apply IH. intros y Hy. apply H. now right.
Qed.

Lemma findIndex_from_first {A : Type} (p : A -> bool) (l : list A) (i : Z)
    (n : nat) (x : A) :
  nth_error l n = Some x -> p x = true ->
  (forall m y, (m < n)%nat -> nth_error l m = Some y -> p y = false) ->
  JS.findIndex_from i p l = (i + Z.of_nat n)%Z.
Proof.
  revert i n; induction l as [|y l IH]; intros i [|n] Hn Hx Hbefore;
    try discriminate.
  - cbn in Hn. injection Hn as ->. cbn. rewrite Hx. lia.
  - cbn. rewrite (Hbefore 0%nat y) by (cbn; (lia || reflexivity)).
    rewrite (IH (i + 1)%Z n); [lia|exact Hn|exact Hx|].
    intros m z Hm Hz. apply (Hbefore (S m) z); [lia|exact Hz].
Qed.

(** X16. The edit button with an id that is not empty never changes the
    canonical list or the list shown. When no row shown has the id it
    changes nothing at all; otherwise the edit index becomes the position
    of the first row shown with that id and the draft becomes the name,
    email and role of that row. *)
Theorem edit_click_loads_the_row (s : State) (a : string) :
  a <> "" ->
  st_original (onEditClick (Some a) s) = st_original s
  /\ st_list (onEditClick (Some a) s) = st_list s
  /\ ((forall item, In item (st_list s) -> id item <> a) ->
      onEditClick (Some a) s = s)
  /\ (forall n item,
         nth_error (st_list s) n = Some item -> id item = a ->
         (forall m other, (m < n)%nat ->
                          nth_error (st_list s) m = Some other ->
                          id other <> a) ->
         st_editIndex (onEditClick (Some a) s) = Z.of_nat n
         /\ st_name (onEditClick (Some a) s) = name item
         /\ st_email (onEditClick (Some a) s) = email item
         /\ st_role (onEditClick (Some a) s) = role item).
Proof.
  intros Ha. unfold onEditClick. rewrite usableId_nonempty by exact Ha.
  split; [|split; [|split]].
  - destruct (_ <? 0)%Z; [reflexivity|]. now destruct (nth_error _ _).
  - destruct (_ <? 0)%Z; [reflexivity|]. now destruct (nth_error _ _).
  - intros Habsent. unfold JS.findIndex.
    rewrite findIndex_from_absent; [reflexivity|].
    intros item Hin. apply String.eqb_neq. now apply Habsent.
  - intros n item Hn Hid Hbefore. unfold JS.findIndex.
    rewrite (findIndex_from_first _ _ 0%Z n item Hn).
    + cbn [Z.add]. destruct (Z.of_nat n <? 0)%Z eqn:E; [lia|].
      rewrite Nat2Z.id, Hn. repeat split.
    + now apply String.eqb_eq.
    + intros m other Hm Hother. apply String.eqb_neq. eauto.
Qed.

Lemma edit_click_loads_the_row_witness :
  st_original (onEditClick (Some "13") Sample.loaded)
  = st_original Sample.loaded.
Proof.
  apply (edit_click_loads_the_row Sample.loaded "13"). discriminate.
Defined.

(** X17. In a reachable state whose table shows the current page (no
    search result on display), saving while the row at [editIndex] is
    shown writes the draft into the record of exactly that row: its
    place in the canonical list is the page offset plus the row, the
    record there takes the draft's name, email and role and keeps its
    id and tick, and every other place keeps its record. *)
Theorem save_on_the_page_writes_the_edited_row
    (s : State) (n : nat) (item : TUser) :
  reachable toLowerCase s ->
  st_list s = paginatedList s ->
  st_editIndex s = Z.of_nat n ->
  nth_error (st_list s) n = Some item ->
  nth_error (st_original s)
            (Z.to_nat ((currentPage s - 1) * PAGE_SIZE) + n)
  = Some item
  /\ nth_error (st_original (onSaveClick s))
               (Z.to_nat ((currentPage s - 1) * PAGE_SIZE) + n)
     = Some (withFields (st_name s) (st_email s) (st_role s) item)
  /\ (forall m, m <> (Z.to_nat ((currentPage s - 1) * PAGE_SIZE) + n)%nat ->
                nth_error (st_original (onSaveClick s)) m
                = nth_error (st_original s) m).
Proof.
  intros Hreach Hpage Hedit Hrow.
  set (place := (Z.to_nat ((currentPage s - 1) * PAGE_SIZE) + n)%nat).
  apply reachable_hooksInSync in Hreach.
  assert (Hcp : (1 <= currentPage s)%Z) by apply Hreach.
  assert (Hplace : nth_error (st_original s) place = Some item).
  { rewrite Hpage, paginatedList_in_sync in Hrow by assumption.
    unfold PAGE_SIZE in Hrow.
    rewrite pageSlice_firstn_skipn, nth_error_firstn in Hrow by lia.
    destruct (n <? Z.to_nat 10)%nat; [|discriminate].
    now rewrite nth_error_skipn in Hrow. }
  assert (Hsaved : forall m,
            nth_error (st_original (onSaveClick s)) m
            = option_map
                (fun x =>
                   if (0 + Z.of_nat m
                       =? (currentPage s - 1) * PAGE_SIZE + st_editIndex s)%Z
                   then withFields (st_name s) (st_email s) (st_role s) x
                   else x)
                (nth_error (st_original s) m)).
  { intros m. unfold onSaveClick.
    cbn [st_original setRole setEmail setName setEditIndex].
    rewrite st_original_commitOriginal. unfold JS.mapi.
    now rewrite nth_error_mapi_from. }
  split; [exact Hplace|]. split.
  - rewrite Hsaved, Hplace. cbn [option_map].
    replace (_ =? _)%Z with true; [reflexivity|].
    symmetry. apply Z.eqb_eq. unfold place, PAGE_SIZE in *. lia.
  - intros m Hm. rewrite Hsaved.
    destruct (nth_error (st_original s) m); [|reflexivity].
    cbn [option_map]. replace (_ =? _)%Z with false; [reflexivity|].
    symmetry. apply Z.eqb_neq. unfold place, PAGE_SIZE in *. lia.
Qed.

End EditSession.

Lemma save_on_the_page_writes_the_edited_row_witness :
  nth_error (AdminUI.st_original (AdminUI.onSaveClick Sample.editing))
            (Z.to_nat ((AdminUI.currentPage Sample.editing - 1)
                       * AdminUI.PAGE_SIZE) + 2)
  = Some (AdminUI.withFields
            (AdminUI.st_name Sample.editing)
            (AdminUI.st_email Sample.editing)
            (AdminUI.st_role Sample.editing)
            (Sample.fresh "13" "Hu Jintao" "hu@mailinator.com"
                          AdminUI.member)).
Proof.
  apply (save_on_the_page_writes_the_edited_row asciiLower Sample.editing 2
           (Sample.fresh "13" "Hu Jintao" "hu@mailinator.com"
                         AdminUI.member)).
  - exists [AdminUI.FetchSettles Sample.answer; AdminUI.PageButtonClick 1;
            AdminUI.EditClick 2; AdminUI.NameInput "Hu Jin"%string].
    vm_compute. reflexivity.
  - vm_compute. reflexivity.
  - vm_compute. reflexivity.
  - vm_compute. reflexivity.
Defined.

(** ** Moving between pages *)

Section Navigation.
Import AdminUI ComponentFacts.
Local Open Scope string_scope.
Variable toLowerCase : string -> string.

Lemma commitPage_outcome
    (nav : UsePagination.State -> UsePagination.State) (s : State) :
  hooksInSync s ->
  UsePagination.total (nav (pages s)) = UsePagination.total (pages s) ->
  UsePagination.pageSize (nav (pages s)) = UsePagination.pageSize (pages s) ->
  st_original (commitPage nav s) = st_original s
  /\ st_editIndex (commitPage nav s) = st_editIndex s
  /\ totalPages (commitPage nav s) = totalPages s
  /\ currentPage (commitPage nav s) = UsePagination.currentPage (nav (pages s))
  /\ (commitPage nav s = s
      \/ (currentPage (commitPage nav s) <> currentPage s
          /\ st_searchText (commitPage nav s) = ""
          /\ st_list (commitPage nav s)
             = UsePaginatedList.pageSlice
                 (st_original s) (currentPage (commitPage nav s) - 1)
                 PAGE_SIZE)).
Proof.
  intros (Ho & Hc & Hp & _) Ht Hs. unfold commitPage.
  destruct (UsePagination.currentPage (nav (pages s)) =? currentPage s)%Z
    eqn:E.
  - apply Z.eqb_eq in E. repeat split; auto.
  - apply Z.eqb_neq in E. repeat split.
    + unfold totalPages, UsePagination.totalPages. cbn. now rewrite Ht, Hs.
    + right. split; [exact E|]. split; [reflexivity|].
      unfold effectPaginatedList, effectCurrentPage, paginatedList,
        UsePaginatedList.pageSlice, UsePaginatedList.paginatedList,
        currentPage. cbn.
      destruct (paginated s) as [o c p]. cbn in *. now subst.
Qed.

Lemma navigation_step_is_commitPage (e : Event) (s s' : State) :
  isNavigation e = true ->
  step toLowerCase e s = Some s' ->
  s' = s
  \/ exists nav,
       s' = commitPage nav s
       /\ UsePagination.total (nav (pages s)) = UsePagination.total (pages s)
       /\ UsePagination.pageSize (nav (pages s))
          = UsePagination.pageSize (pages s)
       /\ (1 <= UsePagination.currentPage (pages s)
             <= UsePagination.totalPages (pages s) ->
           1 <= UsePagination.currentPage (nav (pages s))
             <= UsePagination.totalPages (nav (pages s))).
Proof.
  intros He Hstep. destruct e; try discriminate He; cbn [step] in Hstep;
    repeat match type of Hstep with
           | (if ?c then _ else _) = _ => destruct c eqn:?
           | match ?c with _ => _ end = _ => destruct c eqn:?
           end;
    try discriminate; injection Hstep as <-.
  - unfold onPageClick. destruct (UsePagination.value _); [|now left].
    right. exists (UsePagination.goToPage page).
    repeat split; try apply goToPage_in_range.
  - right. exists UsePagination.firstPage. repeat split;
      apply (navigation_in_range (pages s)); cbn; auto.
  - right. exists UsePagination.previousPage. split; [reflexivity|].
    split; [unfold UsePagination.previousPage;
            now destruct (UsePagination.canGoPrev _)|].
    split; [unfold UsePagination.previousPage;
            now destruct (UsePagination.canGoPrev _)|].
    intros H. apply (navigation_in_range (pages s) H). cbn. auto.
  - right. exists UsePagination.nextPage. split; [reflexivity|].
    split; [unfold UsePagination.nextPage;
            now destruct (UsePagination.canGoNext _)|].
    split; [unfold UsePagination.nextPage;
            now destruct (UsePagination.canGoNext _)|].
    intros H. apply (navigation_in_range (pages s) H). cbn. auto.
  - right. exists UsePagination.lastPage. repeat split;
      apply (navigation_in_range (pages s)); cbn; auto.
Qed.

(** X18. In a reachable state, a click in the pagination bar never
    changes the canonical list, the page count or the edit index. It
    either changes nothing (a "..." entry) or moves to another page, and
    then the search text is emptied and the table shows that page of the
    canonical list. If the current page was within the page count, the
    new one is too. *)
Theorem navigation_shows_the_new_page (e : Event) (s s' : State) :
  reachable toLowerCase s ->
  isNavigation e = true ->
  step toLowerCase e s = Some s' ->
  st_original s' = st_original s
  /\ st_editIndex s' = st_editIndex s
  /\ totalPages s' = totalPages s
  /\ (s' = s
      \/ (currentPage s' <> currentPage s
          /\ st_searchText s' = ""
          /\ st_list s'
             = UsePaginatedList.pageSlice (st_original s) (currentPage s' - 1)
                                          PAGE_SIZE))
  /\ (currentPage s <= totalPages s ->
      1 <= currentPage s' <= totalPages s').
Proof.
  intros Hreach He Hstep. apply reachable_hooksInSync in Hreach.
  assert (Hcp : (1 <= currentPage s)%Z) by apply Hreach.
  destruct (navigation_step_is_commitPage e s s' He Hstep)
    as [->|(nav & -> & Ht & Hs & Hrange)].
  - repeat split; auto; lia.
  - destruct (commitPage_outcome nav s Hreach Ht Hs)
      as (Ho & Hedit & Htp & Hcur & Hview).
    repeat split; auto.
    + rewrite Hcur. apply Hrange. unfold currentPage, totalPages in *. lia.
    + rewrite Hcur, Htp. unfold totalPages, UsePagination.totalPages.
      rewrite <- Ht, <- Hs.
      apply Hrange. unfold currentPage, totalPages in *. lia.
Qed.

End Navigation.

Lemma navigation_shows_the_new_page_witness :
  AdminUI.st_original (AdminUI.goToPage 3 Sample.loaded)
  = AdminUI.st_original Sample.loaded.
Proof.
  apply (navigation_shows_the_new_page asciiLower (AdminUI.PageButtonClick 2)
           Sample.loaded).
  - exists [AdminUI.FetchSettles Sample.answer]. vm_compute. reflexivity.
  - reflexivity.
  - vm_compute. reflexivity.
Defined.

(** ** Searching and loading, continued *)

Section SearchAndLoad.
Import AdminUI ComponentFacts.
Local Open Scope string_scope.
Variable toLowerCase : string -> string.

Lemma includes_empty (hay : string) : JS.includes "" hay = true.
Proof. destruct hay; reflexivity. Qed.

(** X19. With an empty search box, and a lower-casing that maps the
    empty string to itself, the search button puts the whole canonical
    list into the table, all pages at once. *)
Theorem empty_search_shows_everything (s : State) :
  toLowerCase "" = "" ->
  st_searchText s = "" ->
  st_list (onSearchIconClick toLowerCase s) = st_original s.
Proof.
  intros Hlower Hempty. unfold onSearchIconClick. cbn [st_list setList].
  apply filter_keeps_all. intros item _.
  unfold matchesSearch. now rewrite Hempty, Hlower, includes_empty.
Qed.

(** X20. When the request answers with a list of records, whatever the
    status text, the component right after mounting holds that list, shows
    its first 10 records on page 1, counts its pages at 10 per page, and
    ends with [loading] off and no error. *)
Theorem successful_load_shows_the_first_page
    (statusText : string) (payload : list TUser) :
  st_original
    (fetchData (Fetch.Responds true statusText (Fetch.Json payload)) mounted)
  = payload
  /\ st_list
       (fetchData (Fetch.Responds true statusText (Fetch.Json payload))
                  mounted)
     = firstn 10 payload
  /\ currentPage
       (fetchData (Fetch.Responds true statusText (Fetch.Json payload))
                  mounted)
     = 1%Z
  /\ totalPages
       (fetchData (Fetch.Responds true statusText (Fetch.Json payload))
                  mounted)
     = Z.max (UsePagination.ceilDiv (JS.len payload) 10) 1
  /\ st_loading
       (fetchData (Fetch.Responds true statusText (Fetch.Json payload))
                  mounted)
     = false
  /\ st_error
       (fetchData (Fetch.Responds true statusText (Fetch.Json payload))
                  mounted)
     = "".
Proof.
  repeat split.
  change (st_list _)
    with (UsePaginatedList.pageSlice payload 0 10).
  now rewrite pageSlice_firstn_skipn by lia.
Qed.

(** X21. In a reachable state [Delete Selected] puts into the table the
    page of the remaining records at the current page number, which it
    does not change, and the page count becomes the one of the remaining
    records. *)
Theorem delete_selected_rederives_the_view (s : State) :
  reachable toLowerCase s ->
  st_list (onDeleteSelectedClick s)
  = UsePaginatedList.pageSlice
      (filter (fun item => negb (selected item)) (st_original s))
      (currentPage s - 1) PAGE_SIZE
  /\ currentPage (onDeleteSelectedClick s) = currentPage s
  /\ totalPages (onDeleteSelectedClick s)
     = UsePagination.totalPagesOf
         (JS.len (filter (fun item => negb (selected item)) (st_original s)))
         PAGE_SIZE.
Proof.
  intros Hreach. apply reachable_hooksInSync in Hreach.
  unfold onDeleteSelectedClick. split; [|split].
  - now apply st_list_commitOriginal_in_sync.
  - reflexivity.
  - destruct Hreach as (_ & _ & _ & _ & Hsize & _).
    unfold totalPages, UsePagination.totalPages.
    rewrite pages_commitOriginal. cbn. now rewrite Hsize.
Qed.

End SearchAndLoad.

Lemma empty_search_shows_everything_witness :
  AdminUI.st_list (AdminUI.onSearchIconClick asciiLower Sample.loaded)
  = AdminUI.st_original Sample.loaded.
Proof.
  apply (empty_search_shows_everything asciiLower Sample.loaded);
    reflexivity.
Defined.

Lemma delete_selected_rederives_the_view_witness :
  AdminUI.currentPage (AdminUI.onDeleteSelectedClick Sample.loaded)
  = AdminUI.currentPage Sample.loaded.
Proof.
  apply (delete_selected_rederives_the_view asciiLower Sample.loaded).
  exists [AdminUI.FetchSettles Sample.answer]. vm_compute. reflexivity.
Defined.

(** ** [useApiService], continued *)

Section ApiService.
Import UseApiService UseApiServiceTrigger.
Context {T : Type}.

(** X22. [trigger] of [useApiService], once the request has settled:
    on success the payload is stored, the error is empty and [loading]
    is off; on abort the data is kept, the error is empty and [loading]
    stays on; on any other failure the data is kept, the error is a text
    that is not empty, and [loading] is off. An error left by an earlier
    request is never carried over. *)
Theorem useApiService_trigger_outcome (payloadOf : T -> option T)
    (r : Fetch.Result T) (s : State T) :
  match Fetch.tryBlock r with
  | inr payload =>
      trigger payloadOf r s
      = {| data := payloadOf payload; error := None; loading := false |}
  | inl err =>
      if Fetch.isAbortError err
      then trigger payloadOf r s
           = {| data := data s; error := None; loading := true |}
      else exists text,
             trigger payloadOf r s
             = {| data := data s; error := Some text; loading := false |}
             /\ JS.truthy text = true
  end.
Proof.
  unfold trigger. destruct (Fetch.tryBlock r) as [err|payload];
    [|reflexivity].
  destruct (Fetch.isAbortError err); [reflexivity|].
  eexists. split; [reflexivity|]. cbn. now apply orElse_truthy.
Qed.

End ApiService.
